(** * forgebase: the contract-resolution handler [getContract]

    A shallow embedding of the request handler that resolves a contract's
    ABI from its address (block explorer first, bytecode recovery second).

    Strings are sequences of 8-bit characters; the inputs the handler works
    on (hex strings, URLs, textual signatures) are ASCII.  The network is an
    oracle: every [fetch] asks it for an outcome and is recorded in a trace.
    [console.log] / [console.warn] calls are not modelled. *)

From Stdlib Require Import List String Ascii Bool Arith ZArith Lia.
From Stdlib Require DecimalString.
Import ListNotations.
Local Open Scope string_scope.
Local Open Scope list_scope.
Local Open Scope nat_scope.

(** Template-literal concatenation. *)
Local Infix "+++" := String.append (right associativity, at level 60).

(** ** JavaScript string primitives used by the handler *)

Module Js.

Definition in_range (lo hi : nat) (c : ascii) : bool :=
  let n := nat_of_ascii c in (lo <=? n) && (n <=? hi).

Definition is_digit (c : ascii) : bool := in_range 48 57 c.
Definition is_lower_af (c : ascii) : bool := in_range 97 102 c.
Definition is_upper_AF (c : ascii) : bool := in_range 65 70 c.
Definition is_lower (c : ascii) : bool := in_range 97 122 c.
Definition is_upper (c : ascii) : bool := in_range 65 90 c.

(** The character class [[a-fA-F0-9]] (written [[0-9a-fA-F]] in the scan). *)
Definition is_hex_digit (c : ascii) : bool :=
  is_lower_af c || is_upper_AF c || is_digit c.

(** The lowercase half of it, [[0-9a-f]]. *)
Definition is_lower_hex_digit (c : ascii) : bool :=
  is_lower_af c || is_digit c.

(** The character class [[a-zA-Z0-9_]]. *)
Definition is_ident_char (c : ascii) : bool :=
  is_lower c || is_upper c || is_digit c || Ascii.eqb c "_".

(** Line terminators: what [.] refuses to match. *)
Definition is_line_terminator (c : ascii) : bool :=
  let n := nat_of_ascii c in (n =? 10) || (n =? 13).

(** White space removed by [trim]: TAB, LF, VT, FF, CR and space. *)
Definition is_white_space (c : ascii) : bool :=
  in_range 9 13 c || (nat_of_ascii c =? 32).

Fixpoint all (p : ascii -> bool) (s : string) : bool :=
  match s with
  | EmptyString => true
  | String c t => p c && all p t
  end.

(** [s.slice(n)] for [0 <= n]. *)
Fixpoint slice (n : nat) (s : string) : string :=
  match n, s with
  | O, _ => s
  | S _, EmptyString => EmptyString
  | S k, String _ t => slice k t
  end.

(** [s.slice(0, n)]. *)
Fixpoint take (n : nat) (s : string) : string :=
  match n, s with
  | O, _ => EmptyString
  | S _, EmptyString => EmptyString
  | S k, String c t => String c (take k t)
  end.

Fixpoint startsWith (p s : string) : bool :=
  match p, s with
  | EmptyString, _ => true
  | String _ _, EmptyString => false
  | String a p', String b s' => Ascii.eqb a b && startsWith p' s'
  end.

(** [s.includes(p)]. *)
Fixpoint includes (p s : string) : bool :=
  startsWith p s ||
  match s with
  | EmptyString => false
  | String _ t => includes p t
  end.

(** Longest prefix of characters in the class, and what follows it. *)
Fixpoint span (p : ascii -> bool) (s : string) : string * string :=
  match s with
  | EmptyString => (EmptyString, EmptyString)
  | String c t =>
      if p c then let (a, b) := span p t in (String c a, b)
      else (EmptyString, s)
  end.

(** [s.split(c)] for a one-character separator. *)
Fixpoint split (sep : ascii) (s : string) : list string :=
  match s with
  | EmptyString => [EmptyString]
  | String c t =>
      if Ascii.eqb c sep then EmptyString :: split sep t
      else match split sep t with
           | [] => [String c EmptyString]
           | h :: r => String c h :: r
           end
  end.

Fixpoint trimStart (s : string) : string :=
  match s with
  | EmptyString => EmptyString
  | String c t => if is_white_space c then trimStart t else s
  end.

Fixpoint trimEnd (s : string) : string :=
  match s with
  | EmptyString => EmptyString
  | String c t =>
      match trimEnd t with
      | EmptyString => if is_white_space c then EmptyString else String c EmptyString
      | t' => String c t'
      end
  end.

Definition trim (s : string) : string := trimEnd (trimStart s).

(** Truthiness of a string: only the empty string is falsy. *)
Definition truthy (s : string) : bool :=
  match s with EmptyString => false | String _ _ => true end.

(** [a || b] on strings. *)
Definition or_else (a b : string) : string := if truthy a then a else b.

(** [[...new Set(l)]]: insertion order, a value is kept the first time it
    is seen. *)
Definition Set_add (seen : list string) (x : string) : list string :=
  if existsb (String.eqb x) seen then seen else seen ++ [x].

Definition new_Set (l : list string) : list string :=
  fold_left Set_add l [].

End Js.

(** ** The three regular expressions of the source *)

(** [/^0x[a-fA-F0-9]{40}$/], the pattern of the [address] field of
    [getContractSchema]. *)
Definition address_regex (s : string) : bool :=
  Js.startsWith "0x" s &&
  (String.length (Js.slice 2 s) =? 40) &&
  Js.all Js.is_hex_digit (Js.slice 2 s).

(** [/63([0-9a-fA-F]{8})/] anchored at the head of [s]. *)
Definition push4_here (s : string) : bool :=
  Js.startsWith "63" s &&
  (String.length (Js.take 8 (Js.slice 2 s)) =? 8) &&
  Js.all Js.is_hex_digit (Js.take 8 (Js.slice 2 s)).

(** [s.match(/63([0-9a-fA-F]{8})/g)]: every match, left to right; the
    search resumes after the end of the previous match, so matches do not
    overlap.  [skip] counts the characters of the current match still to
    be stepped over.  The empty list stands for [null]. *)
Fixpoint match_push4_from (skip : nat) (s : string) : list string :=
  match s with
  | EmptyString => []
  | String _ t =>
      match skip with
      | S k => match_push4_from k t
      | O =>
          if push4_here s then Js.take 10 s :: match_push4_from 9 t
          else match_push4_from 0 t
      end
  end.

Definition match_push4 (bytecode : string) : list string :=
  match_push4_from 0 bytecode.

(** The signature pattern of [fetchSignature]: one or more characters of
    [[a-zA-Z0-9_]] (first group), an opening parenthesis, any characters
    but line terminators (second group), a closing parenthesis, end of
    input.  The result is the two captured groups, when the text matches.
    The first group cannot stop before a character of its class, so it is
    the longest such prefix; the second is what lies between the
    parenthesis after it and the closing parenthesis that ends the text. *)
Definition signature_regex (text : string) : option (string * string) :=
  let (name, rest) := Js.span Js.is_ident_char text in
  let n := String.length rest in
  let inner := Js.take (n - 2) (Js.slice 1 rest) in
  if Js.truthy name
     && Js.startsWith "(" rest
     && (2 <=? n)
     && String.eqb (Js.slice (n - 1) rest) ")"
     && Js.all (fun c => negb (Js.is_line_terminator c)) inner
  then Some (name, inner)
  else None.

(** ** Data model *)

(** The values of [z.enum(['mainnet', 'testnet'])]. *)
Inductive Network : Type := mainnet | testnet.

(** A value of [req.query]: missing, a string, or something else (an
    array or a nested object). *)
Inductive QueryValue : Type :=
| QUndefined
| QString (s : string)
| QOther.

Module Query.
Record t : Type := { address : QueryValue; network : QueryValue }.
End Query.

(** The issues a failed schema parse reports, by their zod code. *)
Inductive ZodIssue : Type :=
| invalid_type (path : string)
| invalid_string (path message : string)
| invalid_enum_value (path : string).

Definition issue_path (i : ZodIssue) : string :=
  match i with
  | invalid_type path | invalid_string path _ | invalid_enum_value path => path
  end.

(** Thrown values. *)
Inductive Exn : Type :=
| ZodError (errors : list ZodIssue)
| Error (message : string)
| TypeError (message : string)
| SyntaxError (message : string).

Module EtherscanSourceCode.
Record t : Type := {
  SourceCode : string;
  ABI : string;
  ContractName : string;
  Proxy : string;
  Implementation : string
}.
End EtherscanSourceCode.

(** [result: any] of an explorer answer: absent ([null], [undefined]), a
    string, or an array of source-code entries. *)
Inductive EtherscanResult : Type :=
| ResultAbsent
| ResultText (s : string)
| ResultSources (l : list EtherscanSourceCode.t).

Module EtherscanResponse.
Record t : Type := { status : string; message : string; result : EtherscanResult }.
End EtherscanResponse.

Module RpcResponse.
Record t : Type := { jsonrpc : string; id : Z; result : option string }.
End RpcResponse.

Module FourByteSignature.
Record t : Type := {
  id : Z;
  created_at : string;
  text_signature : string;
  hex_signature : string;
  bytes_signature : string
}.
End FourByteSignature.

Module FourByteResponse.
Record t : Type := {
  count : Z;
  next : option string;
  previous : option string;
  results : option (list FourByteSignature.t)
}.
End FourByteResponse.

Module AbiInput.
Record t : Type := { type : string; name : string }.
End AbiInput.

(** The object [fetchSignature] returns. *)
Module FunctionDescriptor.
Record t : Type := {
  type : string;
  name : string;
  inputs : list AbiInput.t;
  stateMutability : string;
  selector : string
}.
End FunctionDescriptor.

(** [abi] of a response: the parsed explorer JSON, or the recovered list. *)
Inductive Abi (Json : Type) : Type :=
| VerifiedAbi (v : Json)
| RecoveredAbi (l : list FunctionDescriptor.t).
Arguments VerifiedAbi {Json} v.
Arguments RecoveredAbi {Json} l.

Module ContractData.
Record t (Json : Type) : Type := {
  address : string;
  name : string;
  abi : Abi Json;
  isVerified : bool;
  isRecovered : option bool
}.
Arguments address {Json} _.
Arguments name {Json} _.
Arguments abi {Json} _.
Arguments isVerified {Json} _.
Arguments isRecovered {Json} _.
End ContractData.

(** The JSON object passed to [res.json]; a key that is not set is [None]. *)
Module Body.
Record t (Json : Type) : Type := {
  success : bool;
  data : option (ContractData.t Json);
  error : option string;
  code : option string;
  details : option (list ZodIssue)
}.
Arguments success {Json} _.
Arguments data {Json} _.
Arguments error {Json} _.
Arguments code {Json} _.
Arguments details {Json} _.
End Body.

(** What [res.status(n).json(body)] sends. *)
Module Reply.
Record t (Json : Type) : Type := { status : Z; body : Body.t Json }.
Arguments status {Json} _.
Arguments body {Json} _.
End Reply.

(** ** The network *)

(** The body of the [eth_getCode] POST. *)
Module RpcCall.
Record t : Type := { jsonrpc : string; id : Z; method : string; params : list string }.
End RpcCall.

Inductive Request : Type :=
| GET (url : string)
| POST (url : string) (body : RpcCall.t).

(** A [Response]: [json] is [None] when [response.json()] rejects. *)
Module FetchResponse.
Record t (B : Type) : Type := { ok : bool; statusText : string; json : option B }.
Arguments ok {B} _.
Arguments statusText {B} _.
Arguments json {B} _.
End FetchResponse.

Inductive FetchOutcome (B : Type) : Type :=
| FetchFailed (reason : string)
| Fetched (response : FetchResponse.t B).
Arguments FetchFailed {B} reason.
Arguments Fetched {B} response.

(** The outside world, one oracle per kind of call site, each body seen
    through the interface the call site casts it to.  An outcome may
    depend on the requests issued before it.  The body of the node's
    answer may be [null] ([Some None]), which [codeData?.result] allows. *)
Module World.
Record t : Type := {
  explorer : list Request -> string -> FetchOutcome EtherscanResponse.t;
  node : list Request -> string -> RpcCall.t -> FetchOutcome (option RpcResponse.t);
  registry : list Request -> string -> FetchOutcome FourByteResponse.t
}.
End World.

(** [process.env]. *)
Module Env.
Record t : Type := {
  BASESCAN_API_KEY : option string;
  BASE_SEPOLIA_RPC_URL : option string;
  BASE_RPC_URL : option string
}.
End Env.

(** ** Effects: local variables, exceptions and the trace of requests *)

Inductive Result (A : Type) : Type :=
| Ok (a : A)
| Throw (e : Exn).
Arguments Ok {A} a.
Arguments Throw {A} e.

(** A computation over local variables [S]: it returns or throws, and in
    both cases leaves the variables and the trace as they then are. *)
Definition Eff (S A : Type) : Type :=
  S -> list Request -> Result A * S * list Request.

Definition ret {S A} (a : A) : Eff S A := fun s tr => (Ok a, s, tr).

Definition throw {S A} (e : Exn) : Eff S A := fun s tr => (Throw e, s, tr).

Definition bind {S A B} (m : Eff S A) (k : A -> Eff S B) : Eff S B :=
  fun s tr =>
    match m s tr with
    | (Ok a, s', tr') => k a s' tr'
    | (Throw e, s', tr') => (Throw e, s', tr')
    end.

(** [try { m } catch (e) { h e }]. *)
Definition try_catch {S A} (m : Eff S A) (h : Exn -> Eff S A) : Eff S A :=
  fun s tr =>
    match m s tr with
    | (Ok a, s', tr') => (Ok a, s', tr')
    | (Throw e, s', tr') => h e s' tr'
    end.

Definition modify {S} (f : S -> S) : Eff S unit := fun s tr => (Ok tt, f s, tr).

(** A block with its own [let] variables, initialised to [s0]; their final
    values come back with the result. *)
Definition block {S S0 A} (s0 : S0) (m : Eff S0 A) : Eff S (A * S0) :=
  fun s tr =>
    match m s0 tr with
    | (Ok a, s0', tr') => (Ok (a, s0'), s, tr')
    | (Throw e, _, tr') => (Throw e, s, tr')
    end.

Declare Scope eff_scope.
Delimit Scope eff_scope with eff.
Notation "x <- m ;; k" := (bind m (fun x => k))
  (at level 100, m at next level, right associativity) : eff_scope.
Notation "m ;; k" := (bind m (fun _ => k))
  (at level 100, right associativity) : eff_scope.
Notation "'when' b 'then' m" := (if b then m else ret tt)
  (at level 100, b at next level, m at level 100) : eff_scope.

(** How a [try] body that contains [return] finishes. *)
Inductive Completion (A : Type) : Type :=
| Returned (a : A)
| FellThrough.
Arguments Returned {A} a.
Arguments FellThrough {A}.

(** ** Request validation: [getContractSchema] *)

(** [address: z.string().regex(...)]. *)
Definition parse_address (v : QueryValue) : list ZodIssue + string :=
  match v with
  | QString s =>
      if address_regex s then inr s
      else inl [invalid_string "address" "Invalid contract address format"]
  | QUndefined | QOther => inl [invalid_type "address"]
  end.

(** [network: z.enum(['mainnet', 'testnet']).optional().default('mainnet')]. *)
Definition parse_network (v : QueryValue) : list ZodIssue + Network :=
  match v with
  | QUndefined => inr mainnet
  | QString s =>
      if String.eqb s "mainnet" then inr mainnet
      else if String.eqb s "testnet" then inr testnet
      else inl [invalid_enum_value "network"]
  | QOther => inl [invalid_type "network"]
  end.

(** [getContractSchema.parse(req.query)] (schema at source lines 31-34,
    call at line 48): the parsed fields, or a [ZodError] with the issues
    of both fields. *)
Definition getContractSchema_parse (q : Query.t) : Result (string * Network) :=
  match parse_address (Query.address q), parse_network (Query.network q) with
  | inr address, inr network => Ok (address, network)
  | inl i, inr _ => Throw (ZodError i)
  | inr _, inl j => Throw (ZodError j)
  | inl i, inl j => Throw (ZodError (i ++ j))
  end.

(** ** Signature lookup helpers *)

(** [results.sort((a, b) => a.id - b.id)]: ascending identifiers, equal
    identifiers stay in their order (the sort is stable). *)
Fixpoint insert_by_id (x : FourByteSignature.t) (l : list FourByteSignature.t)
  : list FourByteSignature.t :=
  match l with
  | [] => [x]
  | y :: ys =>
      if (FourByteSignature.id x <=? FourByteSignature.id y)%Z then x :: l
      else y :: insert_by_id x ys
  end.

Definition sort_by_id (l : list FourByteSignature.t) : list FourByteSignature.t :=
  fold_right insert_by_id [] l.

(** [results.sort((a, b) => a.id - b.id)[0].text_signature]; [None] when
    the array is empty and the property read throws. *)
Definition bestSig (results : list FourByteSignature.t) : option string :=
  match sort_by_id results with
  | best :: _ => Some (FourByteSignature.text_signature best)
  | [] => None
  end.

(** The registry lookup of one selector. *)
Definition signatureUrl (selector : string) : string :=
  "https://www.4byte.directory/api/v1/signatures/?hex_signature=" +++ selector.

(** The generic placeholder of [fetchSignature]. *)
Definition placeholder (selector : string) : FunctionDescriptor.t :=
  {| FunctionDescriptor.type := "function";
     FunctionDescriptor.name := "unknown_" +++ Js.slice 2 selector;
     FunctionDescriptor.inputs := [];
     FunctionDescriptor.stateMutability := "nonpayable";
     FunctionDescriptor.selector := selector |}.

(** The quick parser of [fetchSignature]: "transfer(address,uint256)" to a
    descriptor, when the text matches the signature pattern. *)
Definition descriptor_of_signature (selector bestSig : string)
  : option FunctionDescriptor.t :=
  match signature_regex bestSig with
  | Some (name, arg_text) =>
      let args := if Js.truthy arg_text then Js.split "," arg_text else [] in
      Some {| FunctionDescriptor.type := "function";
              FunctionDescriptor.name := name;
              FunctionDescriptor.inputs :=
                map (fun type => {| AbiInput.type := Js.trim type;
                                    AbiInput.name := "" |}) args;
              FunctionDescriptor.stateMutability := "nonpayable";
              FunctionDescriptor.selector := selector |}
  | None => None
  end.

(** Step 2 of the recovery (source lines 162-163): the distinct candidates
    of the bytecode scan, each the eight characters after "63" behind the
    prefix "0x". *)
Definition extractSelectors (bytecode : string) : list string :=
  Js.new_Set (map (fun m => "0x" +++ Js.slice 2 m) (match_push4 bytecode)).

(** Truthiness of [data.result]. *)
Definition result_truthy (r : EtherscanResult) : bool :=
  match r with
  | ResultAbsent => false
  | ResultText s => Js.truthy s
  | ResultSources _ => true
  end.

(** [Array.isArray(r) && r.length > 0], then [r[0]]. *)
Definition first_source (r : EtherscanResult) : option EtherscanSourceCode.t :=
  match r with
  | ResultSources (first :: _) => Some first
  | _ => None
  end.

(** The variables [contractName] and [abi] of the first tier. *)
Module Locals.
Record t (Json : Type) : Type := { contractName : string; abi : Json }.
Arguments contractName {Json} _.
Arguments abi {Json} _.
Definition set_contractName {Json} (n : string) (l : t Json) : t Json :=
  {| contractName := n; abi := abi l |}.
Definition set_abi {Json} (a : Json) (l : t Json) : t Json :=
  {| contractName := contractName l; abi := a |}.
End Locals.

Definition chainId_of (network : Network) : string :=
  match network with testnet => "84532" | mainnet => "8453" end.

Definition success_body {Json} (d : ContractData.t Json) : Body.t Json :=
  {| Body.success := true; Body.data := Some d; Body.error := None;
     Body.code := None; Body.details := None |}.

(** ** The handler *)

Section Handler.

Context {Json : Type}.

(** [JSON.parse] on a string: [None] when it throws. *)
Variable JSON_parse : string -> option Json.
Variable env : Env.t.
Variable w : World.t.

Local Open Scope eff_scope.

Definition fetch {S B} (oracle : list Request -> FetchOutcome B) (req : Request)
  : Eff S (FetchResponse.t B) :=
  fun s tr =>
    match oracle tr with
    | FetchFailed reason => (Throw (TypeError reason), s, tr ++ [req])
    | Fetched response => (Ok response, s, tr ++ [req])
    end.

Definition fetch_explorer {S} (url : string) : Eff S (FetchResponse.t EtherscanResponse.t) :=
  fetch (fun tr => World.explorer w tr url) (GET url).

Definition fetch_node {S} (url : string) (body : RpcCall.t)
  : Eff S (FetchResponse.t (option RpcResponse.t)) :=
  fetch (fun tr => World.node w tr url body) (POST url body).

Definition fetch_registry {S} (url : string) : Eff S (FetchResponse.t FourByteResponse.t) :=
  fetch (fun tr => World.registry w tr url) (GET url).

(** [await response.json()]. *)
Definition json_body {S B} (response : FetchResponse.t B) : Eff S B :=
  match FetchResponse.json response with
  | Some b => ret b
  | None => throw (SyntaxError "Unexpected token in JSON")
  end.

(** [JSON.parse(data.result)], [None] when it throws.  An array of entries
    is first turned into a string that is not JSON; an absent result never
    gets here. *)
Definition JSON_parse_any (r : EtherscanResult) : option Json :=
  match r with
  | ResultText s => JSON_parse s
  | ResultAbsent | ResultSources _ => None
  end.

Definition JSON_parse_result {S} (r : EtherscanResult) : Eff S Json :=
  match JSON_parse_any r with
  | Some v => ret v
  | None => throw (SyntaxError "Unexpected token in JSON")
  end.

Definition apiKeyParam : string :=
  match Env.BASESCAN_API_KEY env with
  | Some apiKey => if Js.truthy apiKey then "&apikey=" +++ apiKey else ""
  | None => ""
  end.

Definition v2Url (chainId address : string) : string :=
  "https://api.etherscan.io/v2/api?chainid=" +++ chainId +++
  "&module=contract&action=getabi&address=" +++ address +++ apiKeyParam.

Definition sourceUrl (chainId address : string) : string :=
  "https://api.etherscan.io/v2/api?chainid=" +++ chainId +++
  "&module=contract&action=getsourcecode&address=" +++ address +++ apiKeyParam.

Definition implUrl (chainId implementation : string) : string :=
  "https://api.etherscan.io/v2/api?chainid=" +++ chainId +++
  "&module=contract&action=getabi&address=" +++ implementation +++ apiKeyParam.

(** "Fetch Contract Name & Check for Proxy" (source lines 78-109): the
    inner [try] of the first tier, whose [catch] only logs. *)
Definition enrich (address chainId : string) : Eff (Locals.t Json) unit :=
  try_catch
    (sourceResponse <- fetch_explorer (sourceUrl chainId address) ;;
     when FetchResponse.ok sourceResponse then
       (sourceData <- json_body sourceResponse ;;
        when String.eqb (EtherscanResponse.status sourceData) "1" then
          match first_source (EtherscanResponse.result sourceData) with
          | None => ret tt
          | Some result =>
              modify (Locals.set_contractName
                        (Js.or_else (EtherscanSourceCode.ContractName result)
                                    "Unknown Contract")) ;;
              when String.eqb (EtherscanSourceCode.Proxy result) "1"
                   && Js.truthy (EtherscanSourceCode.Implementation result) then
                (implRes <- fetch_explorer
                              (implUrl chainId (EtherscanSourceCode.Implementation result)) ;;
                 when FetchResponse.ok implRes then
                   (implData <- json_body implRes ;;
                    when String.eqb (EtherscanResponse.status implData) "1"
                         && result_truthy (EtherscanResponse.result implData) then
                      (implAbi <- JSON_parse_result (EtherscanResponse.result implData) ;;
                       modify (Locals.set_abi implAbi) ;;
                       modify (fun l => Locals.set_contractName
                                          (Locals.contractName l +++ " (Proxy)") l))))
          end))
    (fun err => ret tt).

(** "Attempt 1: Etherscan V2 API" (source lines 54-120): the body of the
    first inner [try]. *)
Definition tier1 (address chainId : string) : Eff unit (Reply.t Json) :=
  response <- fetch_explorer (v2Url chainId address) ;;
  if negb (FetchResponse.ok response)
  then throw (Error ("Etherscan API error: " +++ FetchResponse.statusText response))
  else
    data <- json_body response ;;
    if negb (String.eqb (EtherscanResponse.status data) "1")
       || negb (result_truthy (EtherscanResponse.result data))
    then throw (Error (Js.or_else (EtherscanResponse.message data) "Contract not verified"))
    else
      abi <- try_catch (JSON_parse_result (EtherscanResponse.result data))
                       (fun e => throw (Error "Failed to parse Verified ABI")) ;;
      r <- block {| Locals.contractName := "Unknown Contract"; Locals.abi := abi |}
                 (enrich address chainId) ;;
      ret {| Reply.status := 200;
             Reply.body := success_body
               {| ContractData.address := address;
                  ContractData.name := Locals.contractName (snd r);
                  ContractData.abi := VerifiedAbi (Locals.abi (snd r));
                  ContractData.isVerified := true;
                  ContractData.isRecovered := None |} |}.

(** [process.env.X || fallback]. *)
Definition env_or (v : option string) (fallback : string) : string :=
  match v with
  | Some s => Js.or_else s fallback
  | None => fallback
  end.

(** The node endpoint (source lines 130-137), with explorer hosts replaced
    by the public one. *)
Definition rpcUrl (network : Network) : string :=
  let configured :=
    match network with
    | testnet => env_or (Env.BASE_SEPOLIA_RPC_URL env) "https://sepolia.base.org"
    | mainnet => env_or (Env.BASE_RPC_URL env) "https://mainnet.base.org"
    end in
  if Js.includes "basescan.org" configured || Js.includes "etherscan.io" configured
  then match network with
       | testnet => "https://sepolia.base.org"
       | mainnet => "https://mainnet.base.org"
       end
  else configured.

(** "1. Get Bytecode from RPC" (source lines 139-151): the value of
    [codeData?.result].  [codeResponse.ok] is not looked at. *)
Definition getCode (address : string) (network : Network) : Eff unit (option string) :=
  codeResponse <- fetch_node (rpcUrl network)
                    {| RpcCall.jsonrpc := "2.0"; RpcCall.id := 1;
                       RpcCall.method := "eth_getCode";
                       RpcCall.params := [address; "latest"] |} ;;
  codeData <- json_body codeResponse ;;
  ret match codeData with
      | Some d => RpcResponse.result d
      | None => None
      end.

(** The helper [fetchSignature] (source lines 175-209): a descriptor, or
    [null] ([None]). *)
Definition fetchSignature (selector : string) : Eff unit (option FunctionDescriptor.t) :=
  c <- try_catch
         (sigRes <- fetch_registry (signatureUrl selector) ;;
          if negb (FetchResponse.ok sigRes) then ret (Returned None)
          else
            sigData <- json_body sigRes ;;
            match FourByteResponse.results sigData with
            | Some ((_ :: _) as results) =>
                match bestSig results with
                | Some bestSig =>
                    match descriptor_of_signature selector bestSig with
                    | Some d => ret (Returned (Some d))
                    | None => ret FellThrough
                    end
                | None => throw (TypeError "Cannot read properties of undefined")
                end
            | Some [] | None => ret FellThrough
            end)
         (fun e => ret FellThrough) ;;
  match c with
  | Returned r => ret r
  | FellThrough => ret (Some (placeholder selector))
  end.

(** [selectors.map(f)] for an async [f]: the calls start in list order. *)
Fixpoint map_async {A B} (f : A -> Eff unit B) (l : list A) : Eff unit (list B) :=
  match l with
  | [] => ret []
  | x :: xs => y <- f x ;; ys <- map_async f xs ;; ret (y :: ys)
  end.

(** [results.filter(r => r !== null)]. *)
Fixpoint filter_not_null {A} (l : list (option A)) : list A :=
  match l with
  | [] => []
  | Some a :: r => a :: filter_not_null r
  | None :: r => filter_not_null r
  end.

(** "3. Resolve Selectors" (source lines 211-213): [Promise.all] over
    [fetchSignature], then the non-null results pushed onto
    [recoveredAbi]. *)
Definition resolveAll (uniqueSelectors : list string) : Eff unit (list FunctionDescriptor.t) :=
  results <- map_async fetchSignature uniqueSelectors ;;
  ret (filter_not_null results).

(** "Attempt 2: Selector-based Recovery" (source lines 127-225): the body
    of the second [try]. *)
Definition tier2 (address : string) (network : Network) : Eff unit (Reply.t Json) :=
  bytecode <- getCode address network ;;
  match bytecode with
  | None => throw (Error "No bytecode found at address")
  | Some bytecode =>
      if negb (Js.truthy bytecode) || String.eqb bytecode "0x"
      then throw (Error "No bytecode found at address")
      else
        let uniqueSelectors := extractSelectors bytecode in
        if List.length uniqueSelectors =? 0
        then throw (Error "No selectors found in bytecode")
        else
          recoveredAbi <- resolveAll uniqueSelectors ;;
          ret {| Reply.status := 200;
                 Reply.body := success_body
                   {| ContractData.address := address;
                      ContractData.name := "Unverified Contract (Recovered)";
                      ContractData.abi := RecoveredAbi recoveredAbi;
                      ContractData.isVerified := false;
                      ContractData.isRecovered := Some true |} |}
  end.

Definition manual_abi_reply : Reply.t Json :=
  {| Reply.status := 404;
     Reply.body := {| Body.success := false; Body.data := None;
                      Body.error := Some "Contract not verified and recovery failed";
                      Body.code := Some "REQUIRE_MANUAL_ABI";
                      Body.details := None |} |}.

Definition invalid_request_reply (errors : list ZodIssue) : Reply.t Json :=
  {| Reply.status := 400;
     Reply.body := {| Body.success := false; Body.data := None;
                      Body.error := Some "Invalid request";
                      Body.code := None;
                      Body.details := Some errors |} |}.

Definition internal_error_reply (message : string) : Reply.t Json :=
  {| Reply.status := 500;
     Reply.body := {| Body.success := false; Body.data := None;
                      Body.error := Some message;
                      Body.code := None;
                      Body.details := None |} |}.

(** The outer [try] block of [getContract] (source lines 47-237). *)
Definition getContract_body (query : Query.t) : Eff unit (Reply.t Json) :=
  match getContractSchema_parse query with
  | Throw e => throw e
  | Ok (address, network) =>
      let chainId := chainId_of network in
      try_catch (tier1 address chainId)
        (fun tier1Error =>
           try_catch (tier2 address network)
             (fun tier2Error => ret manual_abi_reply))
  end.

(** [getContract(req, res)]: what is sent on [res], and the requests that
    were issued on the way.  The last two cases are the outer [catch]
    (source lines 239-254). *)
Definition getContract (query : Query.t) : Reply.t Json * list Request :=
  match getContract_body query tt [] with
  | (Ok reply, _, tr) => (reply, tr)
  | (Throw (ZodError errors), _, tr) => (invalid_request_reply errors, tr)
  | (Throw (Error message | TypeError message | SyntaxError message), _, tr) =>
      (internal_error_reply message, tr)
  end.

End Handler.

(** ** Vocabulary of the statements *)

(** The canonical form of an address: "0x" and forty lowercase hex digits. *)
Definition canonical_address (s : string) : bool :=
  Js.startsWith "0x" s &&
  (String.length (Js.slice 2 s) =? 40) &&
  Js.all Js.is_lower_hex_digit (Js.slice 2 s).

(** The canonical form of a selector: "0x" and eight lowercase hex digits. *)
Definition canonical_selector (s : string) : bool :=
  Js.startsWith "0x" s &&
  (String.length (Js.slice 2 s) =? 8) &&
  Js.all Js.is_lower_hex_digit (Js.slice 2 s).

(** A request that got no usable answer: the connection failed, the HTTP
    status was not a success, or the body was not JSON. *)
Inductive fetch_failed {B : Type} : FetchOutcome B -> Prop :=
| failed_network (reason : string) : fetch_failed (FetchFailed reason)
| failed_status (r : FetchResponse.t B) :
    FetchResponse.ok r = false -> fetch_failed (Fetched r)
| failed_body (r : FetchResponse.t B) :
    FetchResponse.ok r = true -> FetchResponse.json r = None ->
    fetch_failed (Fetched r).

(** A request answered with a success status and the JSON body [b]. *)
Definition fetch_answers {B : Type} (o : FetchOutcome B) (b : B) : Prop :=
  exists r, o = Fetched r /\ FetchResponse.ok r = true /\ FetchResponse.json r = Some b.

(** The display name read from a source-code entry. *)
Definition name_of_source (e : EtherscanSourceCode.t) : string :=
  Js.or_else (EtherscanSourceCode.ContractName e) "Unknown Contract".

(** The 200 reply of the first tier. *)
Definition verified_reply {Json : Type} (address name : string) (abi : Json)
  : Reply.t Json :=
  {| Reply.status := 200;
     Reply.body := success_body
       {| ContractData.address := address;
          ContractData.name := name;
          ContractData.abi := VerifiedAbi abi;
          ContractData.isVerified := true;
          ContractData.isRecovered := None |} |}.

(** The 200 reply of the second tier. *)
Definition recovered_reply {Json : Type} (address : string)
           (recoveredAbi : list FunctionDescriptor.t) : Reply.t Json :=
  {| Reply.status := 200;
     Reply.body := success_body
       {| ContractData.address := address;
          ContractData.name := "Unverified Contract (Recovered)";
          ContractData.abi := RecoveredAbi recoveredAbi;
          ContractData.isVerified := false;
          ContractData.isRecovered := Some true |} |}.

Section ExplorerLookups.

Context {Json : Type}.
Variable JSON_parse : string -> option Json.
Variable w : World.t.

(** A "get ABI" lookup that succeeds with the ABI [v]: answered, status
    "1", a non-empty result, and the result parses to [v]. *)
Definition abi_fetched (tr : list Request) (url : string) (v : Json) : Prop :=
  exists data,
    fetch_answers (World.explorer w tr url) data
    /\ EtherscanResponse.status data = "1"
    /\ result_truthy (EtherscanResponse.result data) = true
    /\ JSON_parse_any JSON_parse (EtherscanResponse.result data) = Some v.

(** A "get ABI" lookup that fails in any of its ways. *)
Definition abi_fetch_failed (tr : list Request) (url : string) : Prop :=
  fetch_failed (World.explorer w tr url)
  \/ exists data,
       fetch_answers (World.explorer w tr url) data
       /\ (EtherscanResponse.status data <> "1"
           \/ result_truthy (EtherscanResponse.result data) = false
           \/ JSON_parse_any JSON_parse (EtherscanResponse.result data) = None).

(** A "get source code" lookup that yields the entry [e]: answered, status
    "1", and [e] heads a non-empty array. *)
Definition source_fetched (tr : list Request) (url : string)
           (e : EtherscanSourceCode.t) : Prop :=
  exists data,
    fetch_answers (World.explorer w tr url) data
    /\ EtherscanResponse.status data = "1"
    /\ first_source (EtherscanResponse.result data) = Some e.

(** A "get source code" lookup that fails: network error, bad status,
    non-JSON body, status other than "1", or no entry. *)
Definition source_fetch_failed (tr : list Request) (url : string) : Prop :=
  fetch_failed (World.explorer w tr url)
  \/ exists data,
       fetch_answers (World.explorer w tr url) data
       /\ (EtherscanResponse.status data <> "1"
           \/ first_source (EtherscanResponse.result data) = None).

End ExplorerLookups.

(** A registry lookup answered with a non-success HTTP status. *)
Definition lookup_refused (w : World.t) (tr : list Request) (selector : string) : bool :=
  match World.registry w tr (signatureUrl selector) with
  | Fetched r => negb (FetchResponse.ok r)
  | FetchFailed _ => false
  end.

(** The selectors of a fan-out whose lookups are not refused, the lookups
    being issued in list order after the requests [tr]. *)
Fixpoint kept_selectors (w : World.t) (tr : list Request) (selectors : list string)
  : list string :=
  match selectors with
  | [] => []
  | sel :: rest =>
      (if lookup_refused w tr sel then [] else [sel])
      ++ kept_selectors w (tr ++ [GET (signatureUrl sel)]) rest
  end.

(** A descriptor of [selector] is a placeholder, or is resolved from some
    textual signature. *)
Definition is_placeholder (d : FunctionDescriptor.t) : Prop :=
  d = placeholder (FunctionDescriptor.selector d).

Definition is_resolved (d : FunctionDescriptor.t) : Prop :=
  exists text, descriptor_of_signature (FunctionDescriptor.selector d) text = Some d.

(** Decidable versions, for counting. *)
Definition descriptor_eqb (a b : FunctionDescriptor.t) : bool :=
  String.eqb (FunctionDescriptor.type a) (FunctionDescriptor.type b)
  && String.eqb (FunctionDescriptor.name a) (FunctionDescriptor.name b)
  && (List.length (FunctionDescriptor.inputs a) =? List.length (FunctionDescriptor.inputs b))
  && forallb (fun p => String.eqb (AbiInput.type (fst p)) (AbiInput.type (snd p))
                       && String.eqb (AbiInput.name (fst p)) (AbiInput.name (snd p)))
             (combine (FunctionDescriptor.inputs a) (FunctionDescriptor.inputs b))
  && String.eqb (FunctionDescriptor.stateMutability a) (FunctionDescriptor.stateMutability b)
  && String.eqb (FunctionDescriptor.selector a) (FunctionDescriptor.selector b).

Definition is_placeholderb (d : FunctionDescriptor.t) : bool :=
  descriptor_eqb d (placeholder (FunctionDescriptor.selector d)).


(** ** The frontend helpers: [fetchContractFromExplorer], [isValidAddress] *)

(** [isValidAddress] (source lines 349-351): the address pattern again. *)
Definition isValidAddress (address : string) : bool := address_regex address.

Definition BASE_EXPLORER_API : string := "https://api.basescan.org/api".
Definition BASE_SEPOLIA_EXPLORER_API : string := "https://api-sepolia.basescan.org/api".

Module ExplorerContract.
Record t (Json : Type) : Type := {
  address : string;
  name : string;
  abi : Json;
  is_verified : bool
}.
Arguments address {Json} _.
Arguments name {Json} _.
Arguments abi {Json} _.
Arguments is_verified {Json} _.
End ExplorerContract.

(** [String(r)] for a truthy result: an array prints its entries, each an
    object, separated by commas. *)
Definition String_of_result (r : EtherscanResult) : string :=
  match r with
  | ResultAbsent => ""
  | ResultText s => s
  | ResultSources l => String.concat "," (map (fun _ => "[object Object]") l)
  end.

(** [r.length > 0], for a string as for an array. *)
Definition result_nonempty (r : EtherscanResult) : bool :=
  match r with
  | ResultAbsent => false
  | ResultText s => 0 <? String.length s
  | ResultSources l => 0 <? List.length l
  end.

(** [r[0].ContractName]: [None] where it is [undefined] (the first
    character of a string has no such property). *)
Definition first_ContractName (r : EtherscanResult) : option string :=
  match r with
  | ResultSources (first :: _) => Some (EtherscanSourceCode.ContractName first)
  | _ => None
  end.

(** [x || fallback] for a string that may be [undefined]. *)
Definition or_default (x : option string) (fallback : string) : string :=
  match x with
  | Some s => Js.or_else s fallback
  | None => fallback
  end.

Section Frontend.

Context {Json : Type}.
Variable JSON_parse : string -> option Json.
Variable w : World.t.

Local Open Scope eff_scope.

Definition getabiUrl (baseUrl address : string) : string :=
  baseUrl +++ "?module=contract&action=getabi&address=" +++ address.

Definition getsourcecodeUrl (baseUrl address : string) : string :=
  baseUrl +++ "?module=contract&action=getsourcecode&address=" +++ address.

Definition blockscoutUrl (isTestnet : bool) : string :=
  if isTestnet then "https://base-sepolia.blockscout.com/api"
  else "https://base.blockscout.com/api".

(** "Try to get contract name" (source lines 293-304): the innermost
    [try], over the variable [contractName]; its [catch] only logs. *)
Definition fetch_name (baseUrl address : string) : Eff string unit :=
  try_catch
    (sourceResponse <- fetch_explorer w (getsourcecodeUrl baseUrl address) ;;
     when FetchResponse.ok sourceResponse then
       (sourceData <- json_body sourceResponse ;;
        when String.eqb (EtherscanResponse.status sourceData) "1"
             && result_truthy (EtherscanResponse.result sourceData)
             && result_nonempty (EtherscanResponse.result sourceData) then
          modify (fun _ => or_default
                             (first_ContractName (EtherscanResponse.result sourceData))
                             "Unknown Contract")))
    (fun err => ret tt).

(** The outer [try] block (source lines 272-318): the explorer first. *)
Definition basescan_attempt (baseUrl address : string)
  : Eff unit (ExplorerContract.t Json) :=
  response <- fetch_explorer w (getabiUrl baseUrl address) ;;
  data <- try_catch (json_body response)
                    (fun e => throw (Error "Basescan response invalid")) ;;
  c <- (if FetchResponse.ok response
           && String.eqb (EtherscanResponse.status data) "1"
           && result_truthy (EtherscanResponse.result data)
        then
          try_catch
            (abi <- JSON_parse_result JSON_parse (EtherscanResponse.result data) ;;
             r <- block "Unknown Contract" (fetch_name baseUrl address) ;;
             ret (Returned {| ExplorerContract.address := address;
                              ExplorerContract.name := snd r;
                              ExplorerContract.abi := abi;
                              ExplorerContract.is_verified := true |}))
            (fun e => ret FellThrough)
        else ret FellThrough) ;;
  match c with
  | Returned contract => ret contract
  | FellThrough =>
      throw (Error (if result_truthy (EtherscanResponse.result data)
                    then String_of_result (EtherscanResponse.result data)
                    else "Basescan fetch failed"))
  end.

(** "Fallback to Blockscout" (source lines 322-340): the [try] inside the
    outer [catch]. *)
Definition blockscout_attempt (address : string) (isTestnet : bool)
  : Eff unit (Completion (ExplorerContract.t Json)) :=
  try_catch
    (bsResponse <- fetch_explorer w (getabiUrl (blockscoutUrl isTestnet) address) ;;
     bsData <- json_body bsResponse ;;
     if FetchResponse.ok bsResponse
        && String.eqb (EtherscanResponse.status bsData) "1"
        && result_truthy (EtherscanResponse.result bsData)
     then
       abi <- JSON_parse_result JSON_parse (EtherscanResponse.result bsData) ;;
       ret (Returned {| ExplorerContract.address := address;
                        ExplorerContract.name := "Unknown Contract (Blockscout)";
                        ExplorerContract.abi := abi;
                        ExplorerContract.is_verified := true |})
     else ret FellThrough)
    (fun bsError => ret FellThrough).

(** [fetchContractFromExplorer(address, isTestnet)] (source lines
    266-347): the promise resolves ([Ok]) or rejects ([Throw]). *)
Definition fetchContractFromExplorer (address : string) (isTestnet : bool)
  : Eff unit (ExplorerContract.t Json) :=
  let baseUrl := if isTestnet then BASE_SEPOLIA_EXPLORER_API else BASE_EXPLORER_API in
  try_catch (basescan_attempt baseUrl address)
    (fun error =>
       c <- blockscout_attempt address isTestnet ;;
       match c with
       | Returned contract => ret contract
       | FellThrough =>
           throw (Error
             "Failed to fetch contract from explorer (Basescan & Blockscout checked)")
       end).

End Frontend.

(** ** More vocabulary *)

(** The number of separators in a text. *)
Fixpoint count_char (sep : ascii) (s : string) : nat :=
  match s with
  | EmptyString => 0
  | String c t => (if Ascii.eqb c sep then 1 else 0) + count_char sep t
  end.

(** Some suffix of the text starts with "63" and eight hex digits. *)
Fixpoint has_push4 (s : string) : bool :=
  push4_here s ||
  match s with
  | EmptyString => false
  | String _ t => has_push4 t
  end.

(** The explorer API of the frontend, by network. *)
Definition baseUrl_of (isTestnet : bool) : string :=
  if isTestnet then BASE_SEPOLIA_EXPLORER_API else BASE_EXPLORER_API.

(** The request of a registry lookup. *)
Definition lookup_request (selector : string) : Request := GET (signatureUrl selector).

(** ** A fragment of the runtime's JSON *)

(** The handler takes [JSON.parse] and [JSON.stringify] from the runtime.
    This module gives both on a fragment small enough to need no rounding:
    flat arrays of [null] and of unsigned integer literals with an optional
    exponent.  A literal whose value is below 2^53 is that integer exactly;
    one whose value is 2^1024 or more is beyond the range of a double and
    parses to [Infinity]; a literal in between would have to be rounded and
    is left outside the fragment, as is every other text ([parse] gives
    [None] there although the runtime may accept the text).  [stringify]
    writes an integer in decimal and a number that is not finite as
    [null]. *)
Module JsonFragment.

Inductive Number : Type :=
| Finite (n : N)
| Infinity.

Inductive Element : Type :=
| Null
| Num (x : Number).

Definition Json : Type := list Element.











End JsonFragment.
(** ** Concrete runs *)

Module Scenario.

(** A runtime in which a JSON value is kept as its text, and a text is
    JSON when it opens an array. *)
Definition Json : Type := string.
Definition JSON_parse (s : string) : option Json :=
  if Js.startsWith "[" s then Some s else None.

Definition env : Env.t :=
  {| Env.BASESCAN_API_KEY := None;
     Env.BASE_SEPOLIA_RPC_URL := None;
     Env.BASE_RPC_URL := None |}.

Definition answer {B : Type} (b : B) : FetchOutcome B :=
  Fetched {| FetchResponse.ok := true; FetchResponse.statusText := "OK";
             FetchResponse.json := Some b |}.

Definition refuse {B : Type} (statusText : string) : FetchOutcome B :=
  Fetched {| FetchResponse.ok := false; FetchResponse.statusText := statusText;
             FetchResponse.json := None |}.

Definition not_json {B : Type} : FetchOutcome B :=
  Fetched {| FetchResponse.ok := true; FetchResponse.statusText := "OK";
             FetchResponse.json := None |}.

Fixpoint by_url {B : Type} (table : list (string * FetchOutcome B)) (url : string)
  : FetchOutcome B :=
  match table with
  | [] => FetchFailed "fetch failed"
  | (u, o) :: rest => if String.eqb u url then o else by_url rest url
  end.

Definition query (address : string) : Query.t :=
  {| Query.address := QString address; Query.network := QUndefined |}.

Definition offline : World.t :=
  {| World.explorer := fun _ _ => FetchFailed "fetch failed";
     World.node := fun _ _ _ => FetchFailed "fetch failed";
     World.registry := fun _ _ => FetchFailed "fetch failed" |}.

Definition upper_address : string := "0xABCDEF0123456789ABCDEF0123456789ABCDEF01".
Definition mixed_address : string := "0xAbCdEf0123456789aBcDeF0123456789abcdef01".
Definition short_address : string := "0xabcdef".


(** A verified proxy: the three explorer lookups answer. *)
Definition proxy_address : string := "0x1111111111111111111111111111111111111111".
Definition impl_address : string := "0x2222222222222222222222222222222222222222".

Definition abi_answer (text : string) : FetchOutcome EtherscanResponse.t :=
  answer {| EtherscanResponse.status := "1"; EtherscanResponse.message := "OK";
            EtherscanResponse.result := ResultText text |}.

Definition source_answer (name proxy implementation : string)
  : FetchOutcome EtherscanResponse.t :=
  answer {| EtherscanResponse.status := "1"; EtherscanResponse.message := "OK";
            EtherscanResponse.result :=
              ResultSources
                [ {| EtherscanSourceCode.SourceCode := "";
                     EtherscanSourceCode.ABI := "";
                     EtherscanSourceCode.ContractName := name;
                     EtherscanSourceCode.Proxy := proxy;
                     EtherscanSourceCode.Implementation := implementation |} ] |}.

Definition explorer_only (table : list (string * FetchOutcome EtherscanResponse.t))
  : World.t :=
  {| World.explorer := fun _ url => by_url table url;
     World.node := fun _ _ _ => FetchFailed "fetch failed";
     World.registry := fun _ _ => FetchFailed "fetch failed" |}.

Definition proxy_world : World.t :=
  explorer_only
    [ (v2Url env "8453" proxy_address, abi_answer "[0]");
      (sourceUrl env "8453" proxy_address, source_answer "Vault" "1" impl_address);
      (implUrl env "8453" impl_address, abi_answer "[1,2]") ].

(** A verified proxy whose implementation is not verified. *)
Definition unverified_impl_world : World.t :=
  explorer_only
    [ (v2Url env "8453" proxy_address, abi_answer "[0]");
      (sourceUrl env "8453" proxy_address, source_answer "Vault" "1" impl_address);
      (implUrl env "8453" impl_address,
       answer {| EtherscanResponse.status := "0"; EtherscanResponse.message := "NOTOK";
                 EtherscanResponse.result :=
                   ResultText "Contract source code not verified" |}) ].

(** A verified plain contract. *)
Definition plain_address : string := "0x3333333333333333333333333333333333333333".

Definition plain_world : World.t :=
  explorer_only
    [ (v2Url env "8453" plain_address, abi_answer "[0]");
      (sourceUrl env "8453" plain_address, source_answer "Token" "0" "") ].

(** A verified contract whose source-code lookup does not get through. *)
Definition abi_only_world : World.t :=
  explorer_only [ (v2Url env "8453" plain_address, abi_answer "[0]") ].


(** An unverified contract with ten selectors in its dispatch table. *)
Definition ten_selectors : list string :=
  [ "0xa0000000"; "0xa0000001"; "0xa0000002"; "0xa0000003"; "0xa0000004";
    "0xa0000005"; "0xa0000006"; "0xa0000007"; "0xa0000008"; "0xa0000009" ].

Definition ten_bytecode : string :=
  "0x63a00000001463a00000011463a00000021463a00000031463a000000414" +++
  "63a00000051463a00000061463a00000071463a00000081463a000000914".

Definition candidate (id : Z) (text : string) : FourByteSignature.t :=
  {| FourByteSignature.id := id;
     FourByteSignature.created_at := "";
     FourByteSignature.text_signature := text;
     FourByteSignature.hex_signature := "";
     FourByteSignature.bytes_signature := "" |}.

Definition found (l : list FourByteSignature.t) : FetchOutcome FourByteResponse.t :=
  answer {| FourByteResponse.count := Z.of_nat (List.length l);
            FourByteResponse.next := None;
            FourByteResponse.previous := None;
            FourByteResponse.results := Some l |}.

Definition code_answer (bytecode : option string) : FetchOutcome (option RpcResponse.t) :=
  answer (Some {| RpcResponse.jsonrpc := "2.0"; RpcResponse.id := 1;
                  RpcResponse.result := bytecode |}).

Definition unverified (bytecode : option string)
           (table : list (string * FetchOutcome FourByteResponse.t)) : World.t :=
  {| World.explorer := fun _ _ => FetchFailed "fetch failed";
     World.node := fun _ _ _ => code_answer bytecode;
     World.registry := fun _ url => by_url table url |}.

Definition seven_known : list (string * FetchOutcome FourByteResponse.t) :=
  [ (signatureUrl "0xa0000000", found [candidate 11 "transfer(address,uint256)"]);
    (signatureUrl "0xa0000001", found [candidate 12 "approve(address,uint256)"]);
    (signatureUrl "0xa0000002", found [candidate 13 "totalSupply()"]);
    (signatureUrl "0xa0000003", found [candidate 14 "balanceOf(address)"]);
    (signatureUrl "0xa0000004", found [candidate 15 "owner()"]);
    (signatureUrl "0xa0000005", found [candidate 16 "mint(address,uint256)"]);
    (signatureUrl "0xa0000006", found [candidate 17 "burn(uint256)"]) ].

(** Three lookups fail: one by a network error, one by a body that is not
    JSON, one by zero matches. *)
Definition three_failing : World.t :=
  unverified (Some ten_bytecode)
    (seven_known ++
     [ (signatureUrl "0xa0000007", FetchFailed "fetch failed");
       (signatureUrl "0xa0000008", not_json);
       (signatureUrl "0xa0000009", found []) ]).

(** Three lookups are answered with a non-success status. *)
Definition three_refused : World.t :=
  unverified (Some ten_bytecode)
    (seven_known ++
     [ (signatureUrl "0xa0000007", refuse "Too Many Requests");
       (signatureUrl "0xa0000008", refuse "Too Many Requests");
       (signatureUrl "0xa0000009", refuse "Bad Gateway") ]).

(** A plain account: the node reports the empty code. *)
Definition plain_account : World.t := unverified (Some "0x") [].

(** Two candidates for one selector, the later identifier listed first. *)
Definition colliding : World.t :=
  unverified (Some "0x63a9059cbb14")
    [ (signatureUrl "0xa9059cbb",
       found [ candidate 5 "many_msg_babbage(bytes1)";
               candidate 2 "transfer(address,uint256)" ]) ].


(** Three byte strings that hold the push-4 opcode byte followed by
    AA BB CC DD at two offsets: in lowercase; in uppercase; and in
    lowercase with each occurrence preceded by another 0x63 byte. *)
Definition twice_bytecode : string := "0x63aabbccdd1463aabbccdd14".
Definition upper_bytecode : string := "0x63AABBCCDD1463AABBCCDD14".
Definition overlapping_bytecode : string := "0x6363aabbccdd6363aabbccdd".

(** A verified contract asked for under a mixed-case address. *)
Definition mixed_case_world : World.t :=
  explorer_only [ (v2Url env "8453" mixed_address, abi_answer "[0]") ].

End Scenario.

(** ** More concrete runs *)

Module MoreScenarios.

(** The registry refuses every lookup. *)
Definition rate_limited : World.t :=
  {| World.explorer := fun _ _ => FetchFailed "fetch failed";
     World.node := fun _ _ _ => Scenario.code_answer (Some Scenario.ten_bytecode);
     World.registry := fun _ _ => Scenario.refuse "Too Many Requests" |}.

(** The frontend's explorers, by URL. *)
Definition basescan_verified : World.t :=
  Scenario.explorer_only
    [ (getabiUrl BASE_EXPLORER_API Scenario.plain_address, Scenario.abi_answer "[0]");
      (getsourcecodeUrl BASE_EXPLORER_API Scenario.plain_address,
       Scenario.source_answer "Token" "0" "") ].

Definition blockscout_only : World.t :=
  Scenario.explorer_only
    [ (getabiUrl BASE_EXPLORER_API Scenario.plain_address,
       Scenario.answer
         {| EtherscanResponse.status := "0"; EtherscanResponse.message := "NOTOK";
            EtherscanResponse.result := ResultText "Contract source code not verified" |});
      (getabiUrl (blockscoutUrl false) Scenario.plain_address, Scenario.abi_answer "[1,2]") ].




(** A node endpoint set in the environment. *)
Definition own_node : Env.t :=
  {| Env.BASESCAN_API_KEY := None;
     Env.BASE_SEPOLIA_RPC_URL := Some "https://sepolia.basescan.org/rpc";
     Env.BASE_RPC_URL := Some "https://base.example.org/rpc" |}.

End MoreScenarios.

(** * Properties *)

(** ** Strings *)

Lemma startsWith_split (p s : string) :
  Js.startsWith p s = true -> s = p +++ Js.slice (String.length p) s.
Proof.
  revert s; induction p as [|a p IH]; intros s H; simpl in *.
  - reflexivity.
  - destruct s as [|b s]; [discriminate|].
    apply andb_true_iff in H as [Hab Hp].
    apply Ascii.eqb_eq in Hab; subst b.
    simpl. f_equal. now apply IH.
Qed.

Lemma startsWith_append (p s : string) : Js.startsWith p (p +++ s) = true.
Proof.
  induction p as [|a p IH]; simpl; [reflexivity|].
  now rewrite Ascii.eqb_refl, IH.
Qed.

Lemma all_weaken (p q : ascii -> bool) (s : string) :
  (forall c, p c = true -> q c = true) ->
  Js.all p s = true -> Js.all q s = true.
Proof.
  intros Hpq; induction s as [|c s IH]; simpl; [reflexivity|].
  intros H; apply andb_true_iff in H as [Hc Hs].
  now rewrite (Hpq _ Hc), IH.
Qed.

Lemma lower_hex_is_hex (c : ascii) :
  Js.is_lower_hex_digit c = true -> Js.is_hex_digit c = true.
Proof.
  unfold Js.is_lower_hex_digit, Js.is_hex_digit.
  destruct (Js.is_lower_af c), (Js.is_upper_AF c), (Js.is_digit c); simpl; congruence.
Qed.

Lemma all_slice (p : ascii -> bool) (n : nat) (s : string) :
  Js.all p s = true -> Js.all p (Js.slice n s) = true.
Proof.
  revert s; induction n as [|n IH]; intros [|c s]; simpl; try reflexivity; try tauto.
  intros H; apply andb_true_iff in H as [Hc Hs]. now apply IH.
Qed.

Lemma all_append_l (p : ascii -> bool) (m r : string) :
  Js.all p (m +++ r) = true -> Js.all p m = true.
Proof.
  induction m as [|a m IH]; simpl; [reflexivity|].
  intros H; apply andb_true_iff in H as [Ha Hm]. now rewrite Ha, IH.
Qed.

Lemma includes_cons (m : string) (c : ascii) (s : string) :
  Js.includes m (String c s) = Js.startsWith m (String c s) || Js.includes m s.
Proof. reflexivity. Qed.

Lemma all_includes (p : ascii -> bool) (m s : string) :
  Js.includes m s = true -> Js.all p s = true -> Js.all p m = true.
Proof.
  induction s as [|c s IH]; intros Hinc Hall.
  - destruct m; [reflexivity | discriminate].
  - rewrite includes_cons in Hinc.
    apply orb_true_iff in Hinc as [Hst | Hinc].
    + apply startsWith_split in Hst. rewrite Hst in Hall.
      exact (all_append_l _ _ _ Hall).
    + apply IH; [exact Hinc|].
      simpl in Hall. now apply andb_true_iff in Hall as [_ Hs].
Qed.

(** The primitives on small inputs. *)

Example split_keeps_empty_fields : Js.split "," "a,,b" = ["a"; ""; "b"].
Proof. reflexivity. Qed.

Example trim_both_ends : Js.trim "  uint256 " = "uint256".
Proof. reflexivity. Qed.

Example signature_regex_transfer :
  signature_regex "transfer(address,uint256)" = Some ("transfer", "address,uint256").
Proof. reflexivity. Qed.

Example signature_regex_no_arguments : signature_regex "owner()" = Some ("owner", "").
Proof. reflexivity. Qed.

Example signature_regex_needs_closing : signature_regex "owner(" = None.
Proof. reflexivity. Qed.

Example signature_regex_needs_name : signature_regex "(uint256)" = None.
Proof. reflexivity. Qed.

Example new_Set_first_seen_order : Js.new_Set ["b"; "a"; "b"; "c"; "a"] = ["b"; "a"; "c"].
Proof. reflexivity. Qed.

Example match_push4_resumes_after_match :
  match_push4 "0x6363aabbccdd63" = ["6363aabbcc"].
Proof. reflexivity. Qed.

Example sort_by_id_is_stable :
  map FourByteSignature.text_signature
      (sort_by_id [Scenario.candidate 7 "c()"; Scenario.candidate 3 "a()";
                   Scenario.candidate 3 "b()"])
  = ["a()"; "b()"; "c()"].
Proof. reflexivity. Qed.

(** ** Running effectful code *)

Lemma bind_Ok {S A B} (m : Eff S A) (k : A -> Eff S B) s tr a s1 tr1 :
  m s tr = (Ok a, s1, tr1) -> bind m k s tr = k a s1 tr1.
Proof. unfold bind; intros ->; reflexivity. Qed.

Lemma try_catch_Ok {S A} (m : Eff S A) h s tr a s1 tr1 :
  m s tr = (Ok a, s1, tr1) -> try_catch m h s tr = (Ok a, s1, tr1).
Proof. unfold try_catch; intros ->; reflexivity. Qed.

Lemma try_catch_Throw {S A} (m : Eff S A) h s tr e s1 tr1 :
  m s tr = (Throw e, s1, tr1) -> try_catch m h s tr = h e s1 tr1.
Proof. unfold try_catch; intros ->; reflexivity. Qed.

(** ** Validation *)

Lemma address_regex_spec (s : string) :
  address_regex s = true <->
  exists d, s = "0x" +++ d /\ String.length d = 40 /\ Js.all Js.is_hex_digit d = true.
Proof.
  unfold address_regex; split.
  - intros H. apply andb_true_iff in H as [H Hall].
    apply andb_true_iff in H as [Hpre Hlen].
    exists (Js.slice 2 s). repeat split.
    + exact (startsWith_split "0x" s Hpre).
    + now apply Nat.eqb_eq.
    + exact Hall.
  - intros (d & -> & Hlen & Hall).
    rewrite (startsWith_append "0x" d).
    change (Js.slice 2 ("0x" +++ d)) with d.
    now rewrite Hlen, Hall.
Qed.

Lemma canonical_address_accepted (s : string) :
  canonical_address s = true -> address_regex s = true.
Proof.
  unfold canonical_address, address_regex; intros H.
  apply andb_true_iff in H as [H Hall]. rewrite H.
  rewrite (all_weaken _ _ _ lower_hex_is_hex Hall). reflexivity.
Qed.

Lemma parse_ok_address (q : Query.t) (address : string) (network : Network) :
  getContractSchema_parse q = Ok (address, network) ->
  Query.address q = QString address /\ address_regex address = true.
Proof.
  unfold getContractSchema_parse, parse_address.
  destruct (Query.address q) as [|s|]; try (destruct (parse_network _); discriminate).
  destruct (address_regex s) eqn:E; destruct (parse_network _); try discriminate.
  intros [= <- _]. now split.
Qed.

Lemma parse_rejects_address (q : Query.t) :
  (forall s, Query.address q = QString s -> address_regex s = false) ->
  exists errors i,
    getContractSchema_parse q = Throw (ZodError errors)
    /\ In i errors /\ issue_path i = "address".
Proof.
  intros H. unfold getContractSchema_parse, parse_address.
  destruct (Query.address q) as [|s|] eqn:E; [| rewrite (H s eq_refl) |];
    destruct (parse_network _) as [j|n];
    do 2 eexists; (split; [reflexivity|]);
    (split; [left; reflexivity | reflexivity]).
Qed.

(** C3, as stated, fails: an address written with uppercase hex digits is
    not in canonical form, and validation accepts it and hands it on as
    given. *)
Lemma C3_uppercase_address_accepted :
  canonical_address Scenario.upper_address = false
  /\ address_regex Scenario.upper_address = true
  /\ getContractSchema_parse (Scenario.query Scenario.upper_address)
     = Ok (Scenario.upper_address, mainnet).
Proof. repeat split; reflexivity. Qed.

(** C3 (amended): validation accepts an address string exactly when it is
    "0x" followed by forty hex digits of either letter case, so every
    canonical lowercase address is accepted, and an accepted address is
    passed on unchanged; any other string fails with a ValidationError
    that carries the issue of the address field. *)
Theorem C3_address_accepted_iff_40_hex_digits (s : string) (network : QueryValue) :
  (address_regex s = true <->
   exists d, s = "0x" +++ d /\ String.length d = 40 /\ Js.all Js.is_hex_digit d = true)
  /\ (canonical_address s = true -> address_regex s = true)
  /\ (address_regex s = true -> parse_address (QString s) = inr s)
  /\ (address_regex s = false ->
      exists errors,
        getContractSchema_parse {| Query.address := QString s; Query.network := network |}
        = Throw (ZodError errors)
        /\ In (invalid_string "address" "Invalid contract address format") errors).
Proof.
  split; [apply address_regex_spec|].
  split; [apply canonical_address_accepted|].
  split.
  - intros H. unfold parse_address. now rewrite H.
  - intros H. unfold getContractSchema_parse, parse_address; simpl. rewrite H.
    destruct (parse_network network); eexists; (split; [reflexivity|]); left; reflexivity.
Qed.

Lemma C3_address_accepted_iff_40_hex_digits_witness :
  address_regex Scenario.short_address = false
  /\ exists errors,
       getContractSchema_parse (Scenario.query Scenario.short_address)
       = Throw (ZodError errors)
       /\ In (invalid_string "address" "Invalid contract address format") errors.
Proof.
  split; [reflexivity|].
  apply (C3_address_accepted_iff_40_hex_digits Scenario.short_address QUndefined).
  reflexivity.
Defined.

(** C9: a request whose address does not match the forty-hex-digit pattern
    is answered with 400, success false, error "Invalid request" and the
    issues of the schema (one of them on the address field), and no
    request to the explorer, the node or the registry is issued. *)
Theorem C9_invalid_address_400_without_network_call
  {Json : Type} (JSON_parse : string -> option Json) (env : Env.t) (w : World.t)
  (q : Query.t) :
  (forall s, Query.address q = QString s -> address_regex s = false) ->
  exists reply errors issue,
    getContract JSON_parse env w q = (reply, [])
    /\ Reply.status reply = 400%Z
    /\ Body.success (Reply.body reply) = false
    /\ Body.error (Reply.body reply) = Some "Invalid request"
    /\ Body.details (Reply.body reply) = Some errors
    /\ In issue errors /\ issue_path issue = "address".
Proof.
  intros H.
  destruct (parse_rejects_address q H) as (errors & issue & Hparse & Hin & Hpath).
  exists (invalid_request_reply errors), errors, issue.
  unfold getContract, getContract_body. rewrite Hparse.
  repeat split; assumption.
Qed.

Lemma C9_invalid_address_400_without_network_call_witness :
  exists reply errors issue,
    getContract Scenario.JSON_parse Scenario.env Scenario.offline
                (Scenario.query Scenario.short_address) = (reply, [])
    /\ Reply.status reply = 400%Z
    /\ Body.success (Reply.body reply) = false
    /\ Body.error (Reply.body reply) = Some "Invalid request"
    /\ Body.details (Reply.body reply) = Some errors
    /\ In issue errors /\ issue_path issue = "address".
Proof.
  apply C9_invalid_address_400_without_network_call.
  intros s [= <-]. reflexivity.
Defined.

(** ** The first tier *)

Section Tier1.

Context {Json : Type}.
Variable JSON_parse : string -> option Json.
Variable env : Env.t.
Variable w : World.t.

Lemma fetch_outcome_cases {B : Type} (o : FetchOutcome B) :
  fetch_failed o \/ exists b, fetch_answers o b.
Proof.
  destruct o as [reason | r]; [left; constructor|].
  destruct (FetchResponse.ok r) eqn:Hok; [|left; now constructor].
  destruct (FetchResponse.json r) as [b|] eqn:Hjson; [|left; now constructor].
  right; exists b, r; auto.
Qed.

Lemma fetch_explorer_answers {S} (url : string) (data : EtherscanResponse.t)
      (s : S) (tr : list Request) :
  fetch_answers (World.explorer w tr url) data ->
  exists r, FetchResponse.ok r = true /\ FetchResponse.json r = Some data
            /\ fetch_explorer w url s tr = (Ok r, s, tr ++ [GET url]).
Proof.
  intros (r & Ho & Hok & Hjson). exists r. repeat split; try assumption.
  unfold fetch_explorer, fetch. now rewrite Ho.
Qed.

(** The enrichment block never throws. *)
Lemma enrich_total (address chainId : string) (l : Locals.t Json) (tr : list Request) :
  exists l' tr', enrich JSON_parse env w address chainId l tr = (Ok tt, l', tr').
Proof.
  unfold enrich, try_catch.
  match goal with |- context [match ?m l tr with _ => _ end] => destruct (m l tr) as [[[[]|e] l'] tr'] end;
    unfold ret; eauto.
Qed.

(** Once the verified ABI is obtained, the first tier answers 200 with
    whatever the enrichment leaves in its two variables. *)
Lemma tier1_after_abi (address chainId : string) (tr : list Request) (v : Json) :
  abi_fetched JSON_parse w tr (v2Url env chainId address) v ->
  exists l' tr',
    enrich JSON_parse env w address chainId
           {| Locals.contractName := "Unknown Contract"; Locals.abi := v |}
           (tr ++ [GET (v2Url env chainId address)]) = (Ok tt, l', tr')
    /\ tier1 JSON_parse env w address chainId tt tr
       = (Ok {| Reply.status := 200;
                Reply.body := success_body
                  {| ContractData.address := address;
                     ContractData.name := Locals.contractName l';
                     ContractData.abi := VerifiedAbi (Locals.abi l');
                     ContractData.isVerified := true;
                     ContractData.isRecovered := None |} |}, tt, tr').
Proof.
  intros (data & Hans & Hstatus & Htruthy & Hparse).
  destruct (enrich_total address chainId
              {| Locals.contractName := "Unknown Contract"; Locals.abi := v |}
              (tr ++ [GET (v2Url env chainId address)])) as (l' & tr' & Henrich).
  exists l', tr'. split; [exact Henrich|].
  unfold tier1.
  destruct (fetch_explorer_answers (v2Url env chainId address) data tt tr Hans)
    as (r & Hok & Hjson & Hfetch).
  rewrite (bind_Ok _ _ _ _ _ _ _ Hfetch).
  rewrite Hok. cbn [negb].
  unfold json_body. rewrite Hjson.
  unfold bind at 1. unfold ret at 1.
  rewrite Hstatus, Htruthy, String.eqb_refl. cbn [negb orb].
  unfold bind, try_catch, JSON_parse_result. rewrite Hparse.
  unfold ret at 1. unfold block. rewrite Henrich. reflexivity.
Qed.

Lemma enrich_source_failed (address chainId : string) (l : Locals.t Json)
      (tr : list Request) :
  source_fetch_failed w tr (sourceUrl env chainId address) ->
  enrich JSON_parse env w address chainId l tr
  = (Ok tt, l, tr ++ [GET (sourceUrl env chainId address)]).
Proof.
  intros [Hfail | (data & (r & Ho & Hok & Hjson) & Hbad)];
    unfold enrich, try_catch, bind, fetch_explorer, fetch; cbv beta.
  - destruct (World.explorer w tr (sourceUrl env chainId address)) as [reason | r];
      [reflexivity|].
    inversion Hfail as [ | r' Hok | r' Hok Hjson]; subst r'; rewrite Hok.
    + reflexivity.
    + unfold json_body. rewrite Hjson. reflexivity.
  - rewrite Ho, Hok. unfold json_body. rewrite Hjson. unfold ret at 1.
    destruct Hbad as [Hstatus | Hnone].
    + apply String.eqb_neq in Hstatus. rewrite Hstatus. reflexivity.
    + rewrite Hnone. destruct (String.eqb _ "1"); reflexivity.
Qed.

Lemma lookup_answers_run {S} (url : string) (data : EtherscanResponse.t)
      (k : EtherscanResponse.t -> Eff S unit) (s : S) (tr : list Request) :
  fetch_answers (World.explorer w tr url) data ->
  bind (fetch_explorer w url)
       (fun response =>
          if FetchResponse.ok response then bind (json_body response) k else ret tt) s tr
  = k data s (tr ++ [GET url]).
Proof.
  intros (r & Ho & Hok & Hjson).
  unfold bind, fetch_explorer, fetch, json_body. rewrite Ho, Hok, Hjson. reflexivity.
Qed.

Lemma lookup_failed_run {S} (url : string)
      (k : EtherscanResponse.t -> Eff S unit) (s : S) (tr : list Request) :
  fetch_failed (World.explorer w tr url) ->
  try_catch
    (bind (fetch_explorer w url)
          (fun response =>
             if FetchResponse.ok response then bind (json_body response) k else ret tt))
    (fun _ => ret tt) s tr
  = (Ok tt, s, tr ++ [GET url]).
Proof.
  intros Hfail. unfold try_catch, bind, fetch_explorer, fetch, json_body.
  destruct (World.explorer w tr url) as [reason | r]; [reflexivity|].
  inversion Hfail as [ | r' Hok | r' Hok Hjson]; subst r'; rewrite Hok;
    [|rewrite Hjson]; reflexivity.
Qed.

Lemma enrich_no_proxy (address chainId : string) (l : Locals.t Json)
      (tr : list Request) (e : EtherscanSourceCode.t) :
  source_fetched w tr (sourceUrl env chainId address) e ->
  EtherscanSourceCode.Proxy e <> "1" \/ EtherscanSourceCode.Implementation e = "" ->
  enrich JSON_parse env w address chainId l tr
  = (Ok tt, Locals.set_contractName (name_of_source e) l,
     tr ++ [GET (sourceUrl env chainId address)]).
Proof.
  intros (data & Hans & Hstatus & Hfirst) Hnot.
  unfold enrich, try_catch.
  rewrite (lookup_answers_run _ _ _ _ _ Hans).
  rewrite Hstatus, String.eqb_refl, Hfirst.
  unfold bind at 1, modify at 1.
  destruct Hnot as [Hproxy | Himpl].
  - apply String.eqb_neq in Hproxy. rewrite Hproxy. reflexivity.
  - rewrite Himpl, andb_false_r. reflexivity.
Qed.

Lemma enrich_proxy (address chainId : string) (l : Locals.t Json)
      (tr : list Request) (e : EtherscanSourceCode.t) (implAbi : Json) :
  source_fetched w tr (sourceUrl env chainId address) e ->
  EtherscanSourceCode.Proxy e = "1" ->
  EtherscanSourceCode.Implementation e <> "" ->
  abi_fetched JSON_parse w (tr ++ [GET (sourceUrl env chainId address)])
              (implUrl env chainId (EtherscanSourceCode.Implementation e)) implAbi ->
  enrich JSON_parse env w address chainId l tr
  = (Ok tt,
     {| Locals.contractName := name_of_source e +++ " (Proxy)"; Locals.abi := implAbi |},
     (tr ++ [GET (sourceUrl env chainId address)])
       ++ [GET (implUrl env chainId (EtherscanSourceCode.Implementation e))]).
Proof.
  intros (data & Hans & Hstatus & Hfirst) Hproxy Himpl
         (implData & HimplAns & HimplStatus & Htruthy & Hparse).
  unfold enrich, try_catch.
  rewrite (lookup_answers_run _ _ _ _ _ Hans).
  rewrite Hstatus, String.eqb_refl, Hfirst.
  unfold bind at 1, modify at 1.
  rewrite Hproxy, String.eqb_refl.
  destruct (EtherscanSourceCode.Implementation e) as [|c rest] eqn:Hi; [congruence|].
  cbn [Js.truthy andb].
  rewrite (lookup_answers_run _ _ _ _ _ HimplAns).
  rewrite HimplStatus, Htruthy, String.eqb_refl. cbn [andb].
  unfold JSON_parse_result. rewrite Hparse. reflexivity.
Qed.

Lemma enrich_impl_failed (address chainId : string) (l : Locals.t Json)
      (tr : list Request) (e : EtherscanSourceCode.t) :
  source_fetched w tr (sourceUrl env chainId address) e ->
  EtherscanSourceCode.Proxy e = "1" ->
  EtherscanSourceCode.Implementation e <> "" ->
  abi_fetch_failed JSON_parse w (tr ++ [GET (sourceUrl env chainId address)])
                   (implUrl env chainId (EtherscanSourceCode.Implementation e)) ->
  enrich JSON_parse env w address chainId l tr
  = (Ok tt, Locals.set_contractName (name_of_source e) l,
     (tr ++ [GET (sourceUrl env chainId address)])
       ++ [GET (implUrl env chainId (EtherscanSourceCode.Implementation e))]).
Proof.
  intros (data & Hans & Hstatus & Hfirst) Hproxy Himpl Hfailed.
  unfold enrich, try_catch.
  rewrite (lookup_answers_run _ _ _ _ _ Hans).
  rewrite Hstatus, String.eqb_refl, Hfirst.
  unfold bind at 1, modify at 1.
  rewrite Hproxy, String.eqb_refl.
  destruct (EtherscanSourceCode.Implementation e) as [|c rest] eqn:Hi; [congruence|].
  cbn [Js.truthy andb].
  destruct Hfailed as [Hfail | (implData & HimplAns & Hbad)].
  - pose proof (lookup_failed_run _
                  (fun implData : EtherscanResponse.t =>
                     if String.eqb (EtherscanResponse.status implData) "1"
                        && result_truthy (EtherscanResponse.result implData)
                     then bind (JSON_parse_result JSON_parse (EtherscanResponse.result implData))
                               (fun implAbi =>
                                  bind (modify (Locals.set_abi implAbi))
                                       (fun _ => modify (fun l0 =>
                                          Locals.set_contractName
                                            (Locals.contractName l0 +++ " (Proxy)") l0)))
                     else ret tt)
                  (Locals.set_contractName (name_of_source e) l) _ Hfail) as Hrun.
    unfold try_catch in Hrun. exact Hrun.
  - rewrite (lookup_answers_run _ _ _ _ _ HimplAns).
    destruct Hbad as [Hs | [Ht | Hp]].
    + apply String.eqb_neq in Hs. rewrite Hs. reflexivity.
    + rewrite Ht, andb_false_r. reflexivity.
    + destruct (String.eqb _ "1" && result_truthy _); [|reflexivity].
      unfold bind, JSON_parse_result. rewrite Hp. reflexivity.
Qed.

(** The first tier throws exactly when its ABI lookup fails. *)
Lemma tier1_failed (address chainId : string) (tr : list Request) :
  abi_fetch_failed JSON_parse w tr (v2Url env chainId address) ->
  exists e, tier1 JSON_parse env w address chainId tt tr
            = (Throw e, tt, tr ++ [GET (v2Url env chainId address)]).
Proof.
  intros [Hfail | (data & (r & Ho & Hok & Hjson) & Hbad)];
    unfold tier1, bind, fetch_explorer, fetch; cbv beta.
  - destruct (World.explorer w tr (v2Url env chainId address)) as [reason | r];
      [eexists; reflexivity|].
    inversion Hfail as [ | r' Hok | r' Hok Hjson]; subst r'; rewrite Hok; cbn [negb].
    + eexists; reflexivity.
    + unfold json_body. rewrite Hjson. eexists; reflexivity.
  - rewrite Ho, Hok. cbn [negb]. unfold json_body. rewrite Hjson. unfold ret at 1.
    destruct Hbad as [Hs | [Ht | Hp]].
    + apply String.eqb_neq in Hs. rewrite Hs. eexists; reflexivity.
    + rewrite Ht, orb_true_r. eexists; reflexivity.
    + destruct (negb _ || negb _); [eexists; reflexivity|].
      unfold try_catch, JSON_parse_result. rewrite Hp. eexists; reflexivity.
Qed.

End Tier1.

Section Verified.

Context {Json : Type}.
Variable JSON_parse : string -> option Json.
Variable env : Env.t.
Variable w : World.t.


Lemma abi_lookup_cases (tr : list Request) (url : string) :
  abi_fetch_failed JSON_parse w tr url \/ exists v, abi_fetched JSON_parse w tr url v.
Proof.
  destruct (fetch_outcome_cases (World.explorer w tr url)) as [Hfail | (data & Hans)].
  - left; left; exact Hfail.
  - destruct (String.eqb_spec (EtherscanResponse.status data) "1") as [Hs | Hs];
      [|left; right; exists data; auto].
    destruct (result_truthy (EtherscanResponse.result data)) eqn:Ht;
      [|left; right; exists data; auto].
    destruct (JSON_parse_any JSON_parse (EtherscanResponse.result data)) as [v|] eqn:Hp;
      [|left; right; exists data; auto].
    right; exists v, data; auto.
Qed.

Lemma getContract_tier1_Ok (q : Query.t) (address : string) (network : Network)
      (reply : Reply.t Json) (tr : list Request) :
  getContractSchema_parse q = Ok (address, network) ->
  tier1 JSON_parse env w address (chainId_of network) tt [] = (Ok reply, tt, tr) ->
  getContract JSON_parse env w q = (reply, tr).
Proof.
  intros HparseOk Ht1. unfold getContract, getContract_body. rewrite HparseOk.
  now rewrite (try_catch_Ok _ _ _ _ _ _ _ Ht1).
Qed.

Lemma getContract_verified (q : Query.t) (address : string) (network : Network)
      (v : Json) :
  getContractSchema_parse q = Ok (address, network) ->
  abi_fetched JSON_parse w [] (v2Url env (chainId_of network) address) v ->
  exists l tr,
    enrich JSON_parse env w address (chainId_of network)
           {| Locals.contractName := "Unknown Contract"; Locals.abi := v |}
           [GET (v2Url env (chainId_of network) address)] = (Ok tt, l, tr)
    /\ getContract JSON_parse env w q
       = (verified_reply address (Locals.contractName l) (Locals.abi l), tr).
Proof.
  intros HparseOk Habi.
  destruct (tier1_after_abi JSON_parse env w address (chainId_of network) [] v Habi)
    as (l & tr & Henrich & Ht1).
  exists l, tr. split; [exact Henrich|].
  exact (getContract_tier1_Ok q address network _ tr HparseOk Ht1).
Qed.

End Verified.

(** C4: when the explorer metadata marks the contract as a proxy with a
    populated implementation address and the implementation's ABI lookup
    succeeds, the response is the 200 success whose abi is the
    implementation's ABI, whatever the proxy's own ABI was, and whose name
    is the contract name followed by the marker " (Proxy)". *)
Theorem C4_proxy_gets_implementation_abi
  {Json : Type} (JSON_parse : string -> option Json) (env : Env.t) (w : World.t)
  (q : Query.t) (address : string) (network : Network)
  (ownAbi implAbi : Json) (e : EtherscanSourceCode.t) :
  let chainId := chainId_of network in
  let first := GET (v2Url env chainId address) in
  let second := GET (sourceUrl env chainId address) in
  let third := GET (implUrl env chainId (EtherscanSourceCode.Implementation e)) in
  getContractSchema_parse q = Ok (address, network) ->
  abi_fetched JSON_parse w [] (v2Url env chainId address) ownAbi ->
  source_fetched w [first] (sourceUrl env chainId address) e ->
  EtherscanSourceCode.Proxy e = "1" ->
  EtherscanSourceCode.Implementation e <> "" ->
  abi_fetched JSON_parse w [first; second]
              (implUrl env chainId (EtherscanSourceCode.Implementation e)) implAbi ->
  getContract JSON_parse env w q
  = (verified_reply address (name_of_source e +++ " (Proxy)") implAbi,
     [first; second; third]).
Proof.
  intros chainId first second third HparseOk Hown Hsrc Hproxy Himpl HimplAbi.
  destruct (getContract_verified JSON_parse env w q address network ownAbi HparseOk Hown)
    as (l & tr & Henrich & ->).
  rewrite (enrich_proxy JSON_parse env w address chainId _ [first] e implAbi
             Hsrc Hproxy Himpl HimplAbi) in Henrich.
  injection Henrich as <- <-. reflexivity.
Qed.

(** Discharges a lookup hypothesis on a concrete world. *)
Ltac answered :=
  eexists; split;
  [ eexists; split; [reflexivity | split; reflexivity]
  | repeat split; reflexivity ].

Lemma C4_proxy_gets_implementation_abi_witness :
  getContract Scenario.JSON_parse Scenario.env Scenario.proxy_world
              (Scenario.query Scenario.proxy_address)
  = (verified_reply Scenario.proxy_address "Vault (Proxy)" "[1,2]",
     [ GET (v2Url Scenario.env "8453" Scenario.proxy_address);
       GET (sourceUrl Scenario.env "8453" Scenario.proxy_address);
       GET (implUrl Scenario.env "8453" Scenario.impl_address) ]).
Proof.
  apply (C4_proxy_gets_implementation_abi
           Scenario.JSON_parse Scenario.env Scenario.proxy_world
           (Scenario.query Scenario.proxy_address) Scenario.proxy_address mainnet
           "[0]" "[1,2]"
           {| EtherscanSourceCode.SourceCode := "";
              EtherscanSourceCode.ABI := "";
              EtherscanSourceCode.ContractName := "Vault";
              EtherscanSourceCode.Proxy := "1";
              EtherscanSourceCode.Implementation := Scenario.impl_address |}).
  - reflexivity.
  - answered.
  - answered.
  - reflexivity.
  - discriminate.
  - answered.
Defined.

(** C7: once the verified ABI is obtained, the response is the 200 success
    of the verified tier whatever the enrichment meets.  When the
    source-code lookup fails (network error, bad status, body that is not
    JSON, status other than "1", no entry) the name is the generic
    "Unknown Contract" and the abi is the verified one; when the entry
    marks a proxy and the implementation lookup fails, the abi is still
    the proxy's own verified one, under the contract's name. *)
Theorem C7_enrichment_failure_keeps_verified_success
  {Json : Type} (JSON_parse : string -> option Json) (env : Env.t) (w : World.t)
  (q : Query.t) (address : string) (network : Network) (v : Json) :
  let chainId := chainId_of network in
  let first := GET (v2Url env chainId address) in
  let second := GET (sourceUrl env chainId address) in
  getContractSchema_parse q = Ok (address, network) ->
  abi_fetched JSON_parse w [] (v2Url env chainId address) v ->
  exists reply d tr,
    getContract JSON_parse env w q = (reply, tr)
    /\ Reply.status reply = 200%Z
    /\ Body.success (Reply.body reply) = true
    /\ Body.data (Reply.body reply) = Some d
    /\ ContractData.isVerified d = true
    /\ (source_fetch_failed w [first] (sourceUrl env chainId address) ->
        ContractData.name d = "Unknown Contract"
        /\ ContractData.abi d = VerifiedAbi v)
    /\ (forall e,
          source_fetched w [first] (sourceUrl env chainId address) e ->
          EtherscanSourceCode.Proxy e = "1" ->
          EtherscanSourceCode.Implementation e <> "" ->
          abi_fetch_failed JSON_parse w [first; second]
            (implUrl env chainId (EtherscanSourceCode.Implementation e)) ->
          ContractData.name d = name_of_source e
          /\ ContractData.abi d = VerifiedAbi v).
Proof.
  intros chainId first second HparseOk Habi.
  destruct (getContract_verified JSON_parse env w q address network v HparseOk Habi)
    as (l & tr & Henrich & Hreply).
  eexists; eexists; exists tr.
  split; [exact Hreply|].
  repeat (split; [reflexivity|]).
  split.
  - intros Hfail.
    rewrite (enrich_source_failed JSON_parse env w address chainId _ [first] Hfail)
      in Henrich.
    injection Henrich as <- _. split; reflexivity.
  - intros e Hsrc Hproxy Himpl Hfail.
    rewrite (enrich_impl_failed JSON_parse env w address chainId _ [first] e
               Hsrc Hproxy Himpl Hfail) in Henrich.
    injection Henrich as <- _. split; reflexivity.
Qed.

Lemma C7_enrichment_failure_keeps_verified_success_witness :
  (exists reply d tr,
     getContract Scenario.JSON_parse Scenario.env Scenario.unverified_impl_world
                 (Scenario.query Scenario.proxy_address) = (reply, tr)
     /\ Reply.status reply = 200%Z
     /\ Body.success (Reply.body reply) = true
     /\ Body.data (Reply.body reply) = Some d
     /\ ContractData.isVerified d = true
     /\ ContractData.name d = "Vault"
     /\ ContractData.abi d = VerifiedAbi "[0]")
  /\ (exists reply d tr,
        getContract Scenario.JSON_parse Scenario.env Scenario.abi_only_world
                    (Scenario.query Scenario.plain_address) = (reply, tr)
        /\ Reply.status reply = 200%Z
        /\ Body.success (Reply.body reply) = true
        /\ Body.data (Reply.body reply) = Some d
        /\ ContractData.isVerified d = true
        /\ ContractData.name d = "Unknown Contract"
        /\ ContractData.abi d = VerifiedAbi "[0]").
Proof.
  split.
  - destruct (C7_enrichment_failure_keeps_verified_success
                Scenario.JSON_parse Scenario.env Scenario.unverified_impl_world
                (Scenario.query Scenario.proxy_address) Scenario.proxy_address mainnet "[0]")
      as (reply & d & tr & Hrun & Hstatus & Hsuccess & Hdata & Hverified & _ & Himpl).
    + reflexivity.
    + answered.
    + exists reply, d, tr. repeat (split; [assumption|]).
      apply (Himpl {| EtherscanSourceCode.SourceCode := "";
                      EtherscanSourceCode.ABI := "";
                      EtherscanSourceCode.ContractName := "Vault";
                      EtherscanSourceCode.Proxy := "1";
                      EtherscanSourceCode.Implementation := Scenario.impl_address |}).
      * answered.
      * reflexivity.
      * discriminate.
      * right. eexists; split.
        -- eexists; split; [reflexivity | split; reflexivity].
        -- left. discriminate.
  - destruct (C7_enrichment_failure_keeps_verified_success
                Scenario.JSON_parse Scenario.env Scenario.abi_only_world
                (Scenario.query Scenario.plain_address) Scenario.plain_address mainnet "[0]")
      as (reply & d & tr & Hrun & Hstatus & Hsuccess & Hdata & Hverified & Hsource & _).
    + reflexivity.
    + answered.
    + exists reply, d, tr. repeat (split; [assumption|]).
      apply Hsource. left. constructor.
Defined.




(** ** The second tier *)

(** The head of the sorted candidates has the least identifier. *)
Lemma sort_by_id_head (c : FourByteSignature.t) (cs : list FourByteSignature.t) :
  exists best rest,
    sort_by_id (c :: cs) = best :: rest
    /\ In best (c :: cs)
    /\ forall x, In x (c :: cs) -> (FourByteSignature.id best <= FourByteSignature.id x)%Z.
Proof.
  revert c; induction cs as [|c' cs IH]; intros c.
  - exists c, []. repeat split; [now left|].
    intros x [<- | []]. lia.
  - destruct (IH c') as (b & r & Hsort & Hin & Hmin).
    change (sort_by_id (c :: c' :: cs)) with (insert_by_id c (sort_by_id (c' :: cs))).
    rewrite Hsort. cbn [insert_by_id].
    destruct (Z.leb_spec (FourByteSignature.id c) (FourByteSignature.id b)) as [Hle | Hlt].
    + exists c, (b :: r). repeat split; [now left|].
      intros x [<- | Hx]; [lia|]. specialize (Hmin x Hx). lia.
    + exists b, (insert_by_id c r). repeat split; [now right|].
      intros x [<- | Hx]; [lia|]. exact (Hmin x Hx).
Qed.

Lemma bestSig_least (c : FourByteSignature.t) (cs : list FourByteSignature.t) :
  exists best,
    In best (c :: cs)
    /\ (forall x, In x (c :: cs) ->
                  (FourByteSignature.id best <= FourByteSignature.id x)%Z)
    /\ bestSig (c :: cs) = Some (FourByteSignature.text_signature best).
Proof.
  destruct (sort_by_id_head c cs) as (best & rest & Hsort & Hin & Hmin).
  exists best. repeat split; try assumption.
  unfold bestSig. now rewrite Hsort.
Qed.

Lemma descriptor_of_signature_selector (selector text : string) (d : FunctionDescriptor.t) :
  descriptor_of_signature selector text = Some d ->
  FunctionDescriptor.selector d = selector.
Proof.
  unfold descriptor_of_signature.
  destruct (signature_regex text) as [[name arg_text]|]; [|discriminate].
  intros [= <-]. reflexivity.
Qed.

Section Recovery.

Variable w : World.t.

(** The descriptor a parsed or unparsed best signature leads to. *)
Lemma fetchSignature_found (selector : string) (tr : list Request)
      (data : FourByteResponse.t) (c : FourByteSignature.t) (cs : list FourByteSignature.t)
      (text : string) :
  fetch_answers (World.registry w tr (signatureUrl selector)) data ->
  FourByteResponse.results data = Some (c :: cs) ->
  bestSig (c :: cs) = Some text ->
  fetchSignature w selector tt tr
  = (Ok (Some (match descriptor_of_signature selector text with
               | Some d => d
               | None => placeholder selector
               end)), tt, tr ++ [GET (signatureUrl selector)]).
Proof.
  intros (r & Ho & Hok & Hjson) Hresults Hbest.
  unfold fetchSignature, bind, try_catch, fetch_registry, fetch, json_body.
  rewrite Ho, Hok, Hjson. cbn [negb ret]. rewrite Hresults, Hbest.
  destruct (descriptor_of_signature selector text); reflexivity.
Qed.

(** [fetchSignature] never throws; it returns [null] exactly for a refused
    lookup, and otherwise a descriptor of its selector. *)
Lemma fetchSignature_total (selector : string) (tr : list Request) :
  exists r,
    fetchSignature w selector tt tr = (Ok r, tt, tr ++ [GET (signatureUrl selector)])
    /\ (if lookup_refused w tr selector then r = None
        else exists d, r = Some d
                       /\ FunctionDescriptor.selector d = selector
                       /\ (is_placeholder d \/ is_resolved d)).
Proof.
  assert (Hplace : exists d, Some (placeholder selector) = Some d
                             /\ FunctionDescriptor.selector d = selector
                             /\ (is_placeholder d \/ is_resolved d)).
  { exists (placeholder selector). repeat split. left. reflexivity. }
  unfold fetchSignature, bind, try_catch, fetch_registry, fetch, json_body, lookup_refused.
  destruct (World.registry w tr (signatureUrl selector)) as [reason | r].
  - eexists; split; [reflexivity | exact Hplace].
  - destruct (FetchResponse.ok r); cbn [negb].
    + destruct (FetchResponse.json r) as [data|];
        [|eexists; split; [reflexivity | exact Hplace]].
      cbn [ret].
      destruct (FourByteResponse.results data) as [[|c cs]|];
        try (eexists; split; [reflexivity | exact Hplace]).
      destruct (bestSig_least c cs) as (best & _ & _ & ->).
      destruct (descriptor_of_signature selector (FourByteSignature.text_signature best))
        as [d|] eqn:Hd;
        [|eexists; split; [reflexivity | exact Hplace]].
      eexists; split; [reflexivity|].
      exists d. pose proof (descriptor_of_signature_selector _ _ _ Hd) as Hsel.
      repeat split; [exact Hsel|].
      right. exists (FourByteSignature.text_signature best). now rewrite Hsel.
    + eexists; split; reflexivity.
Qed.

Lemma map_async_fetchSignature (selectors : list string) (tr : list Request) :
  exists results,
    map_async (fetchSignature w) selectors tt tr
    = (Ok results, tt, tr ++ map (fun sel => GET (signatureUrl sel)) selectors)
    /\ map FunctionDescriptor.selector (filter_not_null results)
       = kept_selectors w tr selectors
    /\ Forall (fun d => is_placeholder d \/ is_resolved d) (filter_not_null results).
Proof.
  revert tr; induction selectors as [|sel rest IH]; intros tr.
  - exists []. cbn. rewrite app_nil_r. repeat split. constructor.
  - destruct (fetchSignature_total sel tr) as (r & Hrun & Hr).
    destruct (IH (tr ++ [GET (signatureUrl sel)])) as (rs & Hrest & Hsel & Hall).
    exists (r :: rs). cbn [map_async].
    rewrite (bind_Ok _ _ _ _ _ _ _ Hrun), (bind_Ok _ _ _ _ _ _ _ Hrest).
    cbn [ret map kept_selectors]. rewrite <- app_assoc. cbn [app].
    split; [reflexivity|].
    destruct (lookup_refused w tr sel).
    + subst r. cbn. now split.
    + destruct Hr as (d & -> & Hd & Hkind). cbn. rewrite Hd, Hsel.
      split; [reflexivity | now constructor].
Qed.

Lemma kept_selectors_all (selectors : list string) (tr : list Request) :
  (forall h sel, In sel selectors -> lookup_refused w h sel = false) ->
  kept_selectors w tr selectors = selectors.
Proof.
  revert tr; induction selectors as [|sel rest IH]; intros tr H; [reflexivity|].
  cbn [kept_selectors]. rewrite (H tr sel (or_introl eq_refl)). cbn.
  f_equal. apply IH. intros h s Hs. apply H. now right.
Qed.

Lemma kept_selectors_length (selectors : list string) (tr : list Request) :
  List.length (kept_selectors w tr selectors) <= List.length selectors.
Proof.
  revert tr; induction selectors as [|sel rest IH]; intros tr; [cbn; lia|].
  cbn [kept_selectors]. rewrite length_app. specialize (IH (tr ++ [GET (signatureUrl sel)])).
  destruct (lookup_refused w tr sel); cbn in *; lia.
Qed.

End Recovery.

(** C6: when the registry answers with one or more candidates,
    [fetchSignature] takes the text of a candidate whose identifier is the
    least, and the descriptor it returns is built from that text (the
    placeholder when the text does not parse); of two candidates with
    identifiers 5 and 2, the text of the identifier-2 candidate is taken. *)
Theorem C6_lowest_identifier_candidate_chosen :
  (forall (w : World.t) (selector : string) (tr : list Request)
          (data : FourByteResponse.t) (c : FourByteSignature.t)
          (cs : list FourByteSignature.t),
      fetch_answers (World.registry w tr (signatureUrl selector)) data ->
      FourByteResponse.results data = Some (c :: cs) ->
      exists best,
        In best (c :: cs)
        /\ (forall x, In x (c :: cs) ->
                      (FourByteSignature.id best <= FourByteSignature.id x)%Z)
        /\ bestSig (c :: cs) = Some (FourByteSignature.text_signature best)
        /\ fetchSignature w selector tt tr
           = (Ok (Some (match descriptor_of_signature
                                 selector (FourByteSignature.text_signature best) with
                        | Some d => d
                        | None => placeholder selector
                        end)), tt, tr ++ [GET (signatureUrl selector)]))
  /\ (forall five two : FourByteSignature.t,
        FourByteSignature.id five = 5%Z ->
        FourByteSignature.id two = 2%Z ->
        bestSig [five; two] = Some (FourByteSignature.text_signature two)).
Proof.
  split.
  - intros w selector tr data c cs Hans Hresults.
    destruct (bestSig_least c cs) as (best & Hin & Hmin & Hbest).
    exists best. repeat split; try assumption.
    exact (fetchSignature_found w selector tr data c cs _ Hans Hresults Hbest).
  - intros five two H5 H2. unfold bestSig. cbn. now rewrite H5, H2.
Qed.

Lemma C6_lowest_identifier_candidate_chosen_witness :
  bestSig [Scenario.candidate 5 "many_msg_babbage(bytes1)";
           Scenario.candidate 2 "transfer(address,uint256)"]
  = Some "transfer(address,uint256)"
  /\ exists best,
       In best [Scenario.candidate 5 "many_msg_babbage(bytes1)";
                Scenario.candidate 2 "transfer(address,uint256)"]
       /\ (forall x,
             In x [Scenario.candidate 5 "many_msg_babbage(bytes1)";
                   Scenario.candidate 2 "transfer(address,uint256)"] ->
             (FourByteSignature.id best <= FourByteSignature.id x)%Z)
       /\ bestSig [Scenario.candidate 5 "many_msg_babbage(bytes1)";
                   Scenario.candidate 2 "transfer(address,uint256)"]
          = Some (FourByteSignature.text_signature best)
       /\ fetchSignature Scenario.colliding "0xa9059cbb" tt []
          = (Ok (Some (match descriptor_of_signature
                               "0xa9059cbb" (FourByteSignature.text_signature best) with
                       | Some d => d
                       | None => placeholder "0xa9059cbb"
                       end)), tt, [GET (signatureUrl "0xa9059cbb")]).
Proof.
  split.
  - apply (proj2 C6_lowest_identifier_candidate_chosen); reflexivity.
  - apply (proj1 C6_lowest_identifier_candidate_chosen Scenario.colliding "0xa9059cbb" []
             {| FourByteResponse.count := 2;
                FourByteResponse.next := None;
                FourByteResponse.previous := None;
                FourByteResponse.results :=
                  Some [Scenario.candidate 5 "many_msg_babbage(bytes1)";
                        Scenario.candidate 2 "transfer(address,uint256)"] |}).
    + eexists; split; [reflexivity | split; reflexivity].
    + reflexivity.
Defined.

(** C1, as stated, fails: of ten distinct selectors, three whose lookups
    are answered with a non-success status get no descriptor at all, and
    seven descriptors come back. *)
Lemma C1_refused_lookups_leave_no_descriptor :
  List.length Scenario.ten_selectors = 10
  /\ NoDup Scenario.ten_selectors
  /\ exists ds tr,
       resolveAll Scenario.three_refused Scenario.ten_selectors tt [] = (Ok ds, tt, tr)
       /\ List.length ds = 7.
Proof.
  split; [reflexivity|]. split.
  - assert (H : nodup string_dec Scenario.ten_selectors = Scenario.ten_selectors)
      by reflexivity.
    rewrite <- H. apply NoDup_nodup.
  - eexists; eexists; split; [vm_compute; reflexivity | reflexivity].
Qed.

(** C1 (amended): [resolveAll] never throws and returns, in input order,
    exactly one descriptor for each input selector whose registry lookup is
    not answered with a non-success status, each either resolved from a
    signature text or the placeholder; selectors whose lookup is so refused
    get none.  Hence without refused lookups there is exactly one
    descriptor per selector; and for ten distinct selectors of which three
    lookups fail by a network error, a body that is not JSON and zero
    matches, ten descriptors come back, seven resolved and three
    placeholders, in a 200 success. *)
Theorem C1_one_descriptor_per_selector_not_refused :
  (forall (w : World.t) (selectors : list string) (tr : list Request),
      exists ds,
        resolveAll w selectors tt tr
        = (Ok ds, tt, tr ++ map (fun sel => GET (signatureUrl sel)) selectors)
        /\ map FunctionDescriptor.selector ds = kept_selectors w tr selectors
        /\ List.length ds <= List.length selectors
        /\ Forall (fun d => is_placeholder d \/ is_resolved d) ds
        /\ ((forall h sel, In sel selectors -> lookup_refused w h sel = false) ->
            map FunctionDescriptor.selector ds = selectors
            /\ List.length ds = List.length selectors))
  /\ (extractSelectors Scenario.ten_bytecode = Scenario.ten_selectors
      /\ exists ds tr,
           getContract Scenario.JSON_parse Scenario.env Scenario.three_failing
                       (Scenario.query Scenario.plain_address)
           = (recovered_reply Scenario.plain_address ds, tr)
           /\ List.length ds = 10
           /\ map FunctionDescriptor.selector ds = Scenario.ten_selectors
           /\ map FunctionDescriptor.name ds
              = [ "transfer"; "approve"; "totalSupply"; "balanceOf"; "owner"; "mint";
                  "burn"; "unknown_a0000007"; "unknown_a0000008"; "unknown_a0000009" ]
           /\ List.length (filter is_placeholderb ds) = 3
           /\ List.length (filter (fun d => negb (is_placeholderb d)) ds) = 7).
Proof.
  split.
  - intros w selectors tr.
    destruct (map_async_fetchSignature w selectors tr) as (results & Hrun & Hsel & Hall).
    exists (filter_not_null results).
    unfold resolveAll. rewrite (bind_Ok _ _ _ _ _ _ _ Hrun).
    split; [reflexivity|]. split; [exact Hsel|]. split.
    { rewrite <- (length_map FunctionDescriptor.selector), Hsel.
      apply kept_selectors_length. }
    split; [exact Hall|].
    intros Hnone. rewrite (kept_selectors_all w selectors tr Hnone) in Hsel.
    split; [exact Hsel|].
    now rewrite <- (length_map FunctionDescriptor.selector), Hsel.
  - split; [reflexivity|].
    eexists; eexists; split; [vm_compute; reflexivity|].
    repeat split.
Qed.

Lemma C1_one_descriptor_per_selector_not_refused_witness :
  exists ds,
    resolveAll Scenario.three_failing Scenario.ten_selectors tt []
    = (Ok ds, tt, [] ++ map (fun sel => GET (signatureUrl sel)) Scenario.ten_selectors)
    /\ map FunctionDescriptor.selector ds = Scenario.ten_selectors
    /\ List.length ds = List.length Scenario.ten_selectors.
Proof.
  destruct (proj1 C1_one_descriptor_per_selector_not_refused
                  Scenario.three_failing Scenario.ten_selectors [])
    as (ds & Hrun & _ & _ & _ & Hall).
  exists ds. split; [exact Hrun|].
  apply Hall. intros h sel Hin.
  repeat (destruct Hin as [<- | Hin]; [reflexivity|]). destruct Hin.
Defined.

(** ** Selector extraction *)

Lemma Set_add_In (seen : list string) (x y : string) :
  In y (Js.Set_add seen x) <-> In y seen \/ y = x.
Proof.
  unfold Js.Set_add.
  destruct (existsb (String.eqb x) seen) eqn:E.
  - split; [now left|]. intros [H | ->]; [exact H|].
    apply existsb_exists in E as (z & Hz & Heq).
    apply String.eqb_eq in Heq. now subst z.
  - rewrite in_app_iff. cbn. intuition.
Qed.

Lemma Set_add_NoDup (seen : list string) (x : string) :
  NoDup seen -> NoDup (Js.Set_add seen x).
Proof.
  intros Hnd. unfold Js.Set_add.
  destruct (existsb (String.eqb x) seen) eqn:E; [exact Hnd|].
  apply NoDup_app; [exact Hnd | repeat constructor; intros [] |].
  intros y Hy [Hxy | []]. subst y.
  assert (Ht : existsb (String.eqb x) seen = true).
  { apply existsb_exists. exists x. split; [exact Hy | apply String.eqb_refl]. }
  congruence.
Qed.

Lemma fold_Set_add (l seen : list string) :
  NoDup seen ->
  NoDup (fold_left Js.Set_add l seen)
  /\ forall y, In y (fold_left Js.Set_add l seen) <-> In y seen \/ In y l.
Proof.
  revert seen; induction l as [|x l IH]; intros seen Hnd; cbn [fold_left].
  - split; [exact Hnd|]. intros y. cbn. tauto.
  - destruct (IH (Js.Set_add seen x) (Set_add_NoDup seen x Hnd)) as [Hn Hin].
    split; [exact Hn|]. intros y. rewrite Hin, Set_add_In. cbn. intuition.
Qed.

Lemma new_Set_NoDup (l : list string) : NoDup (Js.new_Set l).
Proof. apply (fold_Set_add l []). constructor. Qed.

Lemma new_Set_In (l : list string) (y : string) : In y (Js.new_Set l) <-> In y l.
Proof.
  unfold Js.new_Set.
  destruct (fold_Set_add l [] (NoDup_nil _)) as [_ H]. rewrite H. cbn. tauto.
Qed.

Lemma startsWith_take (n : nat) (s : string) : Js.startsWith (Js.take n s) s = true.
Proof.
  revert s; induction n as [|n IH]; intros [|c s]; cbn; try reflexivity.
  now rewrite Ascii.eqb_refl, IH.
Qed.

Lemma take_append (p s : string) (n : nat) :
  Js.take (String.length p + n) (p +++ s) = p +++ Js.take n s.
Proof. induction p as [|a p IH]; cbn; [reflexivity | now rewrite IH]. Qed.

(** A match of the scan is "63" and eight hex digits, found in the text. *)
Lemma push4_here_take (s : string) :
  push4_here s = true ->
  exists d, Js.take 10 s = "63" +++ d
            /\ String.length d = 8
            /\ Js.all Js.is_hex_digit d = true.
Proof.
  unfold push4_here. intros H.
  apply andb_true_iff in H as [H Hall]. apply andb_true_iff in H as [Hpre Hlen].
  exists (Js.take 8 (Js.slice 2 s)). repeat split.
  - pose proof (startsWith_split "63" s Hpre) as Hs.
    rewrite Hs at 1. exact (take_append "63" (Js.slice 2 s) 8).
  - now apply Nat.eqb_eq.
  - exact Hall.
Qed.

Lemma match_push4_from_spec (s : string) (skip : nat) (m : string) :
  In m (match_push4_from skip s) ->
  exists d, m = "63" +++ d
            /\ String.length d = 8
            /\ Js.all Js.is_hex_digit d = true
            /\ Js.includes m s = true.
Proof.
  revert skip; induction s as [|c t IH]; intros skip Hin; [destruct Hin|].
  assert (Hlater : forall k, In m (match_push4_from k t) ->
            exists d, m = "63" +++ d /\ String.length d = 8
                      /\ Js.all Js.is_hex_digit d = true
                      /\ Js.includes m (String c t) = true).
  { intros k Hk. destruct (IH k Hk) as (d & Hm & Hlen & Hall & Hinc).
    exists d. repeat split; try assumption.
    rewrite includes_cons, Hinc. apply orb_true_r. }
  cbn [match_push4_from] in Hin. destruct skip as [|k]; [|exact (Hlater k Hin)].
  destruct (push4_here (String c t)) eqn:Hhere; [|exact (Hlater 0 Hin)].
  destruct Hin as [<- | Hin]; [|exact (Hlater 9 Hin)].
  destruct (push4_here_take _ Hhere) as (d & Hm & Hlen & Hall).
  exists d. repeat split; try assumption.
  rewrite includes_cons, startsWith_take. reflexivity.
Qed.

Lemma lower_hex_of_hex (c : ascii) :
  Js.is_hex_digit c = true -> negb (Js.is_upper_AF c) = true ->
  Js.is_lower_hex_digit c = true.
Proof.
  unfold Js.is_hex_digit, Js.is_lower_hex_digit.
  destruct (Js.is_lower_af c), (Js.is_upper_AF c), (Js.is_digit c); cbn; congruence.
Qed.

Lemma all_both (p q r : ascii -> bool) (s : string) :
  (forall c, p c = true -> q c = true -> r c = true) ->
  Js.all p s = true -> Js.all q s = true -> Js.all r s = true.
Proof.
  intros H; induction s as [|c s IH]; cbn; [reflexivity|].
  intros Hp Hq. apply andb_true_iff in Hp as [Hpc Hps].
  apply andb_true_iff in Hq as [Hqc Hqs].
  now rewrite (H c Hpc Hqc), IH.
Qed.

(** C2, as stated, fails twice over.  With the immediate written in
    uppercase the one selector returned is the uppercase text, not
    0xaabbccdd.  And in lowercase, with each of the two occurrences
    preceded by another 0x63 byte, the scan consumes the opcode byte as
    part of an earlier match and no selector 0xaabbccdd is returned. *)
Lemma C2_uppercase_kept_and_overlap_missed :
  (Js.take 10 (Js.slice 2 Scenario.upper_bytecode) = "63AABBCCDD"
   /\ Js.take 10 (Js.slice 14 Scenario.upper_bytecode) = "63AABBCCDD"
   /\ extractSelectors Scenario.upper_bytecode = ["0xAABBCCDD"]
   /\ ~ In "0xaabbccdd" (extractSelectors Scenario.upper_bytecode))
  /\ (Js.take 10 (Js.slice 4 Scenario.overlapping_bytecode) = "63aabbccdd"
      /\ Js.take 10 (Js.slice 16 Scenario.overlapping_bytecode) = "63aabbccdd"
      /\ extractSelectors Scenario.overlapping_bytecode = ["0x63aabbcc"]
      /\ ~ In "0xaabbccdd" (extractSelectors Scenario.overlapping_bytecode)).
Proof.
  repeat split; try reflexivity; intros [H | []]; discriminate H.
Qed.

(** C2 (amended): the extracted selectors carry no duplicates; each is
    "0x" followed by the eight hex characters of a match of the
    left-to-right, non-overlapping scan for "63" and eight hex digits,
    exactly as the bytecode has them (so lowercase when the bytecode has no
    uppercase hex letter); an immediate the scan finds, at however many
    offsets, gives exactly one selector; the bytecode with 63aabbccdd at
    two offsets in lowercase gives exactly the selector 0xaabbccdd. *)
Theorem C2_selectors_distinct_and_verbatim (bytecode : string) :
  NoDup (extractSelectors bytecode)
  /\ (forall sel, In sel (extractSelectors bytecode) ->
        exists d, sel = "0x" +++ d
                  /\ String.length d = 8
                  /\ Js.all Js.is_hex_digit d = true
                  /\ In ("63" +++ d) (match_push4 bytecode)
                  /\ Js.includes ("63" +++ d) bytecode = true)
  /\ (forall d, In ("63" +++ d) (match_push4 bytecode) ->
        count_occ string_dec (extractSelectors bytecode) ("0x" +++ d) = 1)
  /\ (Js.all (fun c => negb (Js.is_upper_AF c)) bytecode = true ->
      Forall (fun sel => canonical_selector sel = true) (extractSelectors bytecode))
  /\ extractSelectors Scenario.twice_bytecode = ["0xaabbccdd"].
Proof.
  assert (Hshape : forall sel, In sel (extractSelectors bytecode) ->
            exists d, sel = "0x" +++ d /\ String.length d = 8
                      /\ Js.all Js.is_hex_digit d = true
                      /\ In ("63" +++ d) (match_push4 bytecode)
                      /\ Js.includes ("63" +++ d) bytecode = true).
  { intros sel Hin. unfold extractSelectors in Hin.
    apply new_Set_In, in_map_iff in Hin as (m & <- & Hm).
    destruct (match_push4_from_spec bytecode 0 m Hm) as (d & -> & Hlen & Hall & Hinc).
    exists d. repeat split; assumption. }
  split; [apply new_Set_NoDup|]. split; [exact Hshape|]. split; [|split].
  - intros d Hd.
    apply NoDup_count_occ'; [apply new_Set_NoDup|].
    unfold extractSelectors. apply new_Set_In, in_map_iff.
    exists ("63" +++ d). split; [reflexivity | exact Hd].
  - intros Hlower. apply Forall_forall. intros sel Hin.
    destruct (Hshape sel Hin) as (d & -> & Hlen & Hall & _ & Hinc).
    unfold canonical_selector.
    change (Js.slice 2 ("0x" +++ d)) with d.
    rewrite (startsWith_append "0x" d), Hlen. cbn [Nat.eqb andb].
    apply (all_both Js.is_hex_digit (fun c => negb (Js.is_upper_AF c)) _ d
                    lower_hex_of_hex Hall).
    pose proof (all_includes _ _ _ Hinc Hlower) as H63.
    exact (all_slice _ 2 _ H63).
  - reflexivity.
Qed.

Lemma C2_selectors_distinct_and_verbatim_witness :
  Forall (fun sel => canonical_selector sel = true)
         (extractSelectors Scenario.ten_bytecode)
  /\ count_occ string_dec (extractSelectors Scenario.twice_bytecode) "0xaabbccdd" = 1.
Proof.
  destruct (C2_selectors_distinct_and_verbatim Scenario.ten_bytecode)
    as (_ & _ & _ & Hlower & _).
  destruct (C2_selectors_distinct_and_verbatim Scenario.twice_bytecode)
    as (_ & _ & Honce & _ & _).
  split.
  - apply Hlower. reflexivity.
  - apply (Honce "aabbccdd"). left. reflexivity.
Defined.

(** ** The pipeline *)

Section Pipeline.

Context {Json : Type}.
Variable JSON_parse : string -> option Json.
Variable env : Env.t.
Variable w : World.t.

Lemma tier2_no_bytecode (address : string) (network : Network)
      (tr tr' : list Request) (bytecode : option string) :
  getCode env w address network tt tr = (Ok bytecode, tt, tr') ->
  bytecode = None \/ bytecode = Some "0x" ->
  exists e, @tier2 Json env w address network tt tr = (Throw e, tt, tr').
Proof.
  intros Hcode Hempty. unfold tier2. rewrite (bind_Ok _ _ _ _ _ _ _ Hcode).
  destruct Hempty as [-> | ->]; eexists; reflexivity.
Qed.

Lemma tier2_Ok_address (address : string) (network : Network)
      (tr tr' : list Request) (reply : Reply.t Json) :
  @tier2 Json env w address network tt tr = (Ok reply, tt, tr') ->
  exists ds, reply = recovered_reply address ds.
Proof.
  unfold tier2, bind.
  destruct (getCode env w address network tt tr) as [[[bytecode | e] u] tr1];
    [|discriminate].
  destruct bytecode as [bytecode|]; [|discriminate].
  destruct (negb (Js.truthy bytecode) || String.eqb bytecode "0x"); [discriminate|].
  destruct (List.length (extractSelectors bytecode) =? 0); [discriminate|].
  destruct (resolveAll w (extractSelectors bytecode) u tr1) as [[[ds | e] u'] tr2];
    [|discriminate].
  intros [= <- _ _]. exists ds. reflexivity.
Qed.

Lemma getContract_exhausted (q : Query.t) (address : string) (network : Network)
      (e1 e2 : Exn) (tr1 tr2 : list Request) :
  getContractSchema_parse q = Ok (address, network) ->
  tier1 JSON_parse env w address (chainId_of network) tt [] = (Throw e1, tt, tr1) ->
  @tier2 Json env w address network tt tr1 = (Throw e2, tt, tr2) ->
  getContract JSON_parse env w q = (manual_abi_reply, tr2).
Proof.
  intros HparseOk Ht1 Ht2. unfold getContract, getContract_body. rewrite HparseOk.
  rewrite (try_catch_Throw _ _ _ _ _ _ _ Ht1), (try_catch_Throw _ _ _ _ _ _ _ Ht2).
  reflexivity.
Qed.

(** A reply with [success] set comes from one of the two tiers, and
    carries the parsed address. *)
Lemma getContract_success_address (q : Query.t) (reply : Reply.t Json)
      (tr : list Request) :
  getContract JSON_parse env w q = (reply, tr) ->
  Body.success (Reply.body reply) = true ->
  exists address network name abi,
    getContractSchema_parse q = Ok (address, network)
    /\ reply = {| Reply.status := 200;
                  Reply.body := success_body
                    {| ContractData.address := address;
                       ContractData.name := name;
                       ContractData.abi := abi;
                       ContractData.isVerified :=
                         match abi with VerifiedAbi _ => true | RecoveredAbi _ => false end;
                       ContractData.isRecovered :=
                         match abi with VerifiedAbi _ => None | RecoveredAbi _ => Some true end
                    |} |}.
Proof.
  unfold getContract, getContract_body.
  destruct (getContractSchema_parse q) as [[address network] | e] eqn:HparseOk.
  - destruct (abi_lookup_cases JSON_parse w [] (v2Url env (chainId_of network) address))
      as [Hfail | (v & Habi)].
    + destruct (tier1_failed JSON_parse env w address (chainId_of network) [] Hfail)
        as (e1 & Ht1).
      rewrite (try_catch_Throw _ _ _ _ _ _ _ Ht1). unfold try_catch.
      destruct (tier2 env w address network tt _) as [[[r | e2] []] tr2] eqn:Ht2.
      * destruct (tier2_Ok_address _ _ _ _ _ Ht2) as (ds & ->).
        intros [= <- _] _. exists address, network. eexists; exists (RecoveredAbi ds).
        split; reflexivity.
      * intros [= <- _]. discriminate.
    + destruct (tier1_after_abi JSON_parse env w address (chainId_of network) [] v Habi)
        as (l & tr1 & _ & Ht1).
      rewrite (try_catch_Ok _ _ _ _ _ _ _ Ht1).
      intros [= <- _] _. exists address, network. eexists; exists (VerifiedAbi (Locals.abi l)).
      split; reflexivity.
  - unfold throw. destruct e; intros [= <- _]; discriminate.
Qed.

End Pipeline.

(** C5: when the first tier fails entirely (its ABI lookup fails in any
    way) and the bytecode the node returns is absent or the empty-code
    sentinel "0x", the response is 404 with success false and the code
    REQUIRE_MANUAL_ABI. *)
Theorem C5_no_bytecode_requires_manual_abi
  {Json : Type} (JSON_parse : string -> option Json) (env : Env.t) (w : World.t)
  (q : Query.t) (address : string) (network : Network)
  (bytecode : option string) (tr : list Request) :
  let first := GET (v2Url env (chainId_of network) address) in
  getContractSchema_parse q = Ok (address, network) ->
  abi_fetch_failed JSON_parse w [] (v2Url env (chainId_of network) address) ->
  getCode env w address network tt [first] = (Ok bytecode, tt, tr) ->
  bytecode = None \/ bytecode = Some "0x" ->
  exists reply,
    getContract JSON_parse env w q = (reply, tr)
    /\ Reply.status reply = 404%Z
    /\ Body.success (Reply.body reply) = false
    /\ Body.code (Reply.body reply) = Some "REQUIRE_MANUAL_ABI"
    /\ Body.data (Reply.body reply) = None.
Proof.
  intros first HparseOk Hfail Hcode Hempty.
  destruct (tier1_failed JSON_parse env w address (chainId_of network) [] Hfail)
    as (e1 & Ht1).
  destruct (@tier2_no_bytecode Json env w address network [first] tr bytecode Hcode Hempty)
    as (e2 & Ht2).
  exists manual_abi_reply. split; [|repeat split].
  exact (getContract_exhausted JSON_parse env w q address network e1 e2 _ tr
           HparseOk Ht1 Ht2).
Qed.

Lemma C5_no_bytecode_requires_manual_abi_witness :
  exists reply : Reply.t Scenario.Json,
    getContract Scenario.JSON_parse Scenario.env Scenario.plain_account
                (Scenario.query Scenario.plain_address)
    = (reply,
       [ GET (v2Url Scenario.env "8453" Scenario.plain_address);
         POST "https://mainnet.base.org"
              {| RpcCall.jsonrpc := "2.0"; RpcCall.id := 1;
                 RpcCall.method := "eth_getCode";
                 RpcCall.params := [Scenario.plain_address; "latest"] |} ])
    /\ Reply.status reply = 404%Z
    /\ Body.success (Reply.body reply) = false
    /\ Body.code (Reply.body reply) = Some "REQUIRE_MANUAL_ABI"
    /\ Body.data (Reply.body reply) = None.
Proof.
  apply (C5_no_bytecode_requires_manual_abi
           Scenario.JSON_parse Scenario.env Scenario.plain_account
           (Scenario.query Scenario.plain_address) Scenario.plain_address mainnet
           (Some "0x")).
  - reflexivity.
  - left. constructor.
  - reflexivity.
  - right. reflexivity.
Defined.

(** C10: in every successful response, of the verified tier and of the
    recovered tier alike, the address field is the address string of the
    request, character for character. *)
Theorem C10_address_echoed_verbatim
  {Json : Type} (JSON_parse : string -> option Json) (env : Env.t) (w : World.t)
  (q : Query.t) (reply : Reply.t Json) (tr : list Request) :
  getContract JSON_parse env w q = (reply, tr) ->
  Body.success (Reply.body reply) = true ->
  exists d,
    Body.data (Reply.body reply) = Some d
    /\ Query.address q = QString (ContractData.address d)
    /\ (ContractData.isVerified d = true \/ ContractData.isRecovered d = Some true).
Proof.
  intros Hrun Hsuccess.
  destruct (getContract_success_address JSON_parse env w q reply tr Hrun Hsuccess)
    as (address & network & name & abi & HparseOk & ->).
  eexists. split; [reflexivity|]. cbn.
  split; [exact (proj1 (parse_ok_address q address network HparseOk))|].
  destruct abi; [left | right]; reflexivity.
Qed.

Lemma C10_address_echoed_verbatim_witness :
  (exists d,
     Body.data (Reply.body
       (fst (getContract Scenario.JSON_parse Scenario.env Scenario.mixed_case_world
                         (Scenario.query Scenario.mixed_address)))) = Some d
     /\ QString Scenario.mixed_address = QString (ContractData.address d)
     /\ (ContractData.isVerified d = true \/ ContractData.isRecovered d = Some true))
  /\ (exists d,
        Body.data (Reply.body
          (fst (getContract Scenario.JSON_parse Scenario.env Scenario.three_failing
                            (Scenario.query Scenario.mixed_address)))) = Some d
        /\ QString Scenario.mixed_address = QString (ContractData.address d)
        /\ (ContractData.isVerified d = true \/ ContractData.isRecovered d = Some true)).
Proof.
  split.
  - apply (C10_address_echoed_verbatim
             Scenario.JSON_parse Scenario.env Scenario.mixed_case_world
             (Scenario.query Scenario.mixed_address) _
             (snd (getContract Scenario.JSON_parse Scenario.env Scenario.mixed_case_world
                               (Scenario.query Scenario.mixed_address))));
      reflexivity.
  - apply (C10_address_echoed_verbatim
             Scenario.JSON_parse Scenario.env Scenario.three_failing
             (Scenario.query Scenario.mixed_address) _
             (snd (getContract Scenario.JSON_parse Scenario.env Scenario.three_failing
                               (Scenario.query Scenario.mixed_address))));
      reflexivity.
Defined.

(** ** Further properties of [getContract] *)

Lemma parse_throws_ZodError (q : Query.t) (e : Exn) :
  getContractSchema_parse q = Throw e -> exists errors, e = ZodError errors.
Proof.
  unfold getContractSchema_parse.
  destruct (parse_address (Query.address q)), (parse_network (Query.network q));
    intros [= <-]; eexists; reflexivity.
Qed.

Section HandlerOutcomes.

Context {Json : Type}.
Variable JSON_parse : string -> option Json.
Variable env : Env.t.
Variable w : World.t.

(** The second tier ends in its 200 reply or throws. *)
Lemma tier2_outcomes (address : string) (network : Network) (tr : list Request) :
  exists tr',
    (exists ds, @tier2 Json env w address network tt tr
                = (Ok (recovered_reply address ds), tt, tr'))
    \/ (exists e, @tier2 Json env w address network tt tr = (Throw e, tt, tr')).
Proof.
  destruct (@tier2 Json env w address network tt tr) as [[[reply | e] []] tr'] eqn:Ht2.
  - exists tr'. left. destruct (tier2_Ok_address env w _ _ _ _ _ Ht2) as (ds & ->).
    exists ds. reflexivity.
  - exists tr'. right. exists e. reflexivity.
Qed.

Lemma getContract_cases (q : Query.t) :
  exists reply tr,
    getContract JSON_parse env w q = (reply, tr)
    /\ ((exists errors,
           getContractSchema_parse q = Throw (ZodError errors)
           /\ reply = invalid_request_reply errors /\ tr = [])
        \/ (exists address network,
              getContractSchema_parse q = Ok (address, network)
              /\ ((Reply.status reply = 200%Z
                   /\ Body.success (Reply.body reply) = true
                   /\ exists d, Body.data (Reply.body reply) = Some d)
                  \/ reply = manual_abi_reply)))
    /\ Reply.status reply <> 500%Z
    /\ (Body.success (Reply.body reply) = true <-> Reply.status reply = 200%Z).
Proof.
  unfold getContract, getContract_body.
  destruct (getContractSchema_parse q) as [[address network] | e] eqn:HparseOk.
  - destruct (abi_lookup_cases JSON_parse w [] (v2Url env (chainId_of network) address))
      as [Hfail | (v & Habi)].
    + destruct (tier1_failed JSON_parse env w address (chainId_of network) [] Hfail)
        as (e1 & Ht1).
      rewrite (try_catch_Throw _ _ _ _ _ _ _ Ht1).
      destruct (tier2_outcomes address network ([] ++ [GET (v2Url env (chainId_of network) address)]))
        as (tr2 & [(ds & Ht2) | (e2 & Ht2)]).
      * rewrite (try_catch_Ok _ _ _ _ _ _ _ Ht2).
        eexists; eexists; split; [reflexivity|]. split; [|split].
        -- right. exists address, network. split; [reflexivity|]. left.
           repeat split. eexists; reflexivity.
        -- discriminate.
        -- split; reflexivity.
      * rewrite (try_catch_Throw _ _ _ _ _ _ _ Ht2).
        eexists; eexists; split; [reflexivity|]. split; [|split].
        -- right. exists address, network. split; [reflexivity|]. right. reflexivity.
        -- discriminate.
        -- split; discriminate.
    + destruct (tier1_after_abi JSON_parse env w address (chainId_of network) [] v Habi)
        as (l & tr1 & _ & Ht1).
      rewrite (try_catch_Ok _ _ _ _ _ _ _ Ht1).
      eexists; eexists; split; [reflexivity|]. split; [|split].
      * right. exists address, network. split; [reflexivity|]. left.
        repeat split. eexists; reflexivity.
      * discriminate.
      * split; reflexivity.
  - destruct (parse_throws_ZodError q e HparseOk) as (errors & ->).
    eexists; eexists; split; [reflexivity|]. split; [|split].
    + left. exists errors. repeat split.
    + discriminate.
    + split; discriminate.
Qed.

(** The response is one of three kinds, and is never the 500 of the outer
    handler: a failed validation gives 400 with no request issued; after a
    passed validation every failure of the explorer, the node or the
    registry ends in the 200 success or in the 404 of the exhausted
    pipeline. *)
Theorem getContract_answers_200_400_or_404 (q : Query.t) :
  exists reply tr,
    getContract JSON_parse env w q = (reply, tr)
    /\ ((exists errors,
           getContractSchema_parse q = Throw (ZodError errors)
           /\ reply = invalid_request_reply errors /\ tr = [])
        \/ (exists address network,
              getContractSchema_parse q = Ok (address, network)
              /\ ((Reply.status reply = 200%Z
                   /\ Body.success (Reply.body reply) = true
                   /\ exists d, Body.data (Reply.body reply) = Some d)
                  \/ reply = manual_abi_reply)))
    /\ Reply.status reply <> 500%Z
    /\ (Body.success (Reply.body reply) = true <-> Reply.status reply = 200%Z).
Proof. exact (getContract_cases q). Qed.

(** The frontend's address check and the handler's validation agree: an
    address passes [isValidAddress] exactly when a request for it, with
    the network left out, is not refused with 400. *)
Theorem isValidAddress_iff_not_refused (address : string) :
  isValidAddress address = true <->
  Reply.status
    (fst (getContract JSON_parse env w
            {| Query.address := QString address; Query.network := QUndefined |}))
  <> 400%Z.
Proof.
  unfold isValidAddress.
  destruct (getContract_cases
              {| Query.address := QString address; Query.network := QUndefined |})
    as (reply & tr & -> & Hkind & _). cbn [fst].
  unfold getContractSchema_parse, parse_address in Hkind. cbn in Hkind.
  destruct (address_regex address).
  - split; [|reflexivity]. intros _.
    destruct Hkind as [(errors & Hp & _) | (a & n & _ & [(-> & _) | ->])];
      [discriminate Hp | discriminate | discriminate].
  - split; [discriminate|]. intros Hne. exfalso. apply Hne.
    destruct Hkind as [(errors & _ & -> & _) | (a & n & Hp & _)];
      [reflexivity | discriminate Hp].
Qed.

End HandlerOutcomes.

(** A network value outside the enumeration is refused with 400 before
    any request is issued, whatever the address; a missing network is
    read as mainnet. *)
Theorem network_outside_enum_rejected
  {Json : Type} (JSON_parse : string -> option Json) (env : Env.t) (w : World.t)
  (q : Query.t) (s : string) :
  Query.network q = QString s -> s <> "mainnet" -> s <> "testnet" ->
  exists errors,
    getContract JSON_parse env w q = (invalid_request_reply errors, [])
    /\ In (invalid_enum_value "network") errors
    /\ parse_network QUndefined = inr mainnet
    /\ parse_network (QString "mainnet") = inr mainnet
    /\ parse_network (QString "testnet") = inr testnet.
Proof.
  intros Hnet Hm Ht.
  assert (Hpn : parse_network (Query.network q) = inl [invalid_enum_value "network"]).
  { rewrite Hnet. unfold parse_network.
    apply String.eqb_neq in Hm, Ht. now rewrite Hm, Ht. }
  unfold getContract, getContract_body, getContractSchema_parse. rewrite Hpn.
  destruct (parse_address (Query.address q)) as [i | a].
  - exists (i ++ [invalid_enum_value "network"]). split; [reflexivity|].
    split; [apply in_or_app; right; now left | repeat split].
  - exists [invalid_enum_value "network"]. split; [reflexivity|].
    split; [now left | repeat split].
Qed.

Lemma network_outside_enum_rejected_witness :
  exists errors,
    getContract Scenario.JSON_parse Scenario.env Scenario.proxy_world
                {| Query.address := QString Scenario.proxy_address;
                   Query.network := QString "Mainnet" |}
    = (invalid_request_reply errors, [])
    /\ In (invalid_enum_value "network") errors
    /\ parse_network QUndefined = inr mainnet
    /\ parse_network (QString "mainnet") = inr mainnet
    /\ parse_network (QString "testnet") = inr testnet.
Proof.
  apply (network_outside_enum_rejected
           Scenario.JSON_parse Scenario.env Scenario.proxy_world
           {| Query.address := QString Scenario.proxy_address;
              Query.network := QString "Mainnet" |} "Mainnet").
  - reflexivity.
  - discriminate.
  - discriminate.
Defined.

(** The node endpoint is never an explorer host, and is otherwise the one
    configured: whatever the environment holds, the URL of the
    [eth_getCode] call contains neither "basescan.org" nor "etherscan.io";
    a configured endpoint that is non-empty and free of both host names is
    the one used; an endpoint that is unset, empty, or contains one of the
    two host names is replaced by the public endpoint of the network. *)
Theorem rpcUrl_never_an_explorer_host (env : Env.t) (network : Network) :
  let configured :=
    match network with
    | testnet => Env.BASE_SEPOLIA_RPC_URL env
    | mainnet => Env.BASE_RPC_URL env
    end in
  let public :=
    match network with
    | testnet => "https://sepolia.base.org"
    | mainnet => "https://mainnet.base.org"
    end in
  Js.includes "basescan.org" (rpcUrl env network) = false
  /\ Js.includes "etherscan.io" (rpcUrl env network) = false
  /\ (forall url,
        configured = Some url -> url <> "" ->
        Js.includes "basescan.org" url = false ->
        Js.includes "etherscan.io" url = false ->
        rpcUrl env network = url)
  /\ (forall url,
        configured = Some url ->
        Js.includes "basescan.org" url = true \/ Js.includes "etherscan.io" url = true ->
        rpcUrl env network = public)
  /\ (configured = None \/ configured = Some "" -> rpcUrl env network = public).
Proof.
  intros configured public.
  assert (Hpub : Js.includes "basescan.org" public = false
                 /\ Js.includes "etherscan.io" public = false)
    by (destruct network; split; reflexivity).
  assert (Hshape : rpcUrl env network
                   = let chosen := env_or configured public in
                     if Js.includes "basescan.org" chosen
                        || Js.includes "etherscan.io" chosen
                     then public else chosen)
    by (destruct network; reflexivity).
  rewrite Hshape. clear Hshape. cbv zeta.
  destruct Hpub as [Hpub1 Hpub2].
  split; [|split; [|split; [|split]]].
  - destruct (Js.includes "basescan.org" (env_or configured public)
              || Js.includes "etherscan.io" (env_or configured public)) eqn:Hb;
      [exact Hpub1 | now apply orb_false_iff in Hb].
  - destruct (Js.includes "basescan.org" (env_or configured public)
              || Js.includes "etherscan.io" (env_or configured public)) eqn:Hb;
      [exact Hpub2 | now apply orb_false_iff in Hb].
  - intros url -> Hne H1 H2. unfold env_or, Js.or_else.
    destruct url as [|c url]; [congruence|]. cbn [Js.truthy].
    now rewrite H1, H2.
  - intros url -> Hhost. unfold env_or, Js.or_else.
    destruct url as [|c url].
    + cbn [Js.truthy]. rewrite Hpub1, Hpub2. reflexivity.
    + cbn [Js.truthy].
      destruct Hhost as [H | H]; rewrite H; [|rewrite orb_true_r]; reflexivity.
  - intros [-> | ->]; unfold env_or, Js.or_else; cbn [Js.truthy];
      rewrite Hpub1, Hpub2; reflexivity.
Qed.

Lemma rpcUrl_never_an_explorer_host_witness :
  rpcUrl MoreScenarios.own_node mainnet = "https://base.example.org/rpc"
  /\ rpcUrl MoreScenarios.own_node testnet = "https://sepolia.base.org".
Proof.
  destruct (rpcUrl_never_an_explorer_host MoreScenarios.own_node mainnet)
    as (_ & _ & Hkept & _).
  destruct (rpcUrl_never_an_explorer_host MoreScenarios.own_node testnet)
    as (_ & _ & _ & Hreplaced & _).
  split.
  - apply Hkept; [reflexivity | discriminate | reflexivity | reflexivity].
  - apply (Hreplaced "https://sepolia.basescan.org/rpc"); [reflexivity | left; reflexivity].
Defined.

(** ** Which requests are issued *)

Lemma match_push4_from_nil_iff (s : string) :
  match_push4_from 0 s = [] <-> has_push4 s = false.
Proof.
  induction s as [|c t IH].
  - split; reflexivity.
  - cbn [match_push4_from has_push4].
    destruct (push4_here (String c t)); cbn [orb].
    + split; discriminate.
    + exact IH.
Qed.

Lemma new_Set_nil_iff (l : list string) : Js.new_Set l = [] <-> l = [].
Proof.
  split; [|intros ->; reflexivity].
  intros H. destruct l as [|x l]; [reflexivity|].
  assert (Hin : In x (Js.new_Set (x :: l))) by (apply new_Set_In; now left).
  rewrite H in Hin. destruct Hin.
Qed.

Lemma extractSelectors_nil_iff (bytecode : string) :
  extractSelectors bytecode = [] <-> has_push4 bytecode = false.
Proof.
  unfold extractSelectors, match_push4.
  rewrite new_Set_nil_iff, <- match_push4_from_nil_iff.
  split; [apply map_eq_nil | intros ->; reflexivity].
Qed.

(** The scan finds nothing exactly when no suffix of the bytecode starts
    with "63" and eight hex digits: the first occurrence is never missed,
    so recovery gives up for want of selectors only on bytecode that has
    no such occurrence at all. *)
Theorem extractSelectors_empty_iff_no_push4 (bytecode : string) :
  extractSelectors bytecode = [] <-> has_push4 bytecode = false.
Proof. exact (extractSelectors_nil_iff bytecode). Qed.

Section Requests.

Context {Json : Type}.
Variable JSON_parse : string -> option Json.
Variable env : Env.t.
Variable w : World.t.

Lemma getCode_run (address : string) (network : Network) (tr : list Request) :
  exists r,
    getCode env w address network tt tr
    = (r, tt, tr ++ [POST (rpcUrl env network)
                          {| RpcCall.jsonrpc := "2.0"; RpcCall.id := 1;
                             RpcCall.method := "eth_getCode";
                             RpcCall.params := [address; "latest"] |}]).
Proof.
  unfold getCode, bind, fetch_node, fetch, json_body.
  destruct (World.node w tr (rpcUrl env network) _) as [reason | r];
    [eexists; reflexivity|].
  destruct (FetchResponse.json r); eexists; reflexivity.
Qed.

Lemma has_push4_nonempty (b : string) :
  has_push4 b = true -> negb (Js.truthy b) || String.eqb b "0x" = false.
Proof.
  destruct b as [|c b]; [discriminate|].
  destruct (String.eqb_spec (String c b) "0x") as [-> | Hne]; [discriminate | reflexivity].
Qed.

Lemma tier2_with_selectors (address : string) (network : Network)
      (tr tr1 : list Request) (b : string) :
  getCode env w address network tt tr = (Ok (Some b), tt, tr1) ->
  has_push4 b = true ->
  exists ds,
    @tier2 Json env w address network tt tr
    = (Ok (recovered_reply address ds), tt,
       tr1 ++ map lookup_request (extractSelectors b))
    /\ map FunctionDescriptor.selector ds = kept_selectors w tr1 (extractSelectors b)
    /\ Forall (fun d => is_placeholder d \/ is_resolved d) ds.
Proof.
  intros Hcode Hhas.
  assert (Hne : extractSelectors b <> []).
  { intros H. apply extractSelectors_nil_iff in H. congruence. }
  destruct (map_async_fetchSignature w (extractSelectors b) tr1)
    as (results & Hrun & Hsel & Hall).
  exists (filter_not_null results). split; [|split; assumption].
  unfold tier2. rewrite (bind_Ok _ _ _ _ _ _ _ Hcode).
  rewrite (has_push4_nonempty b Hhas).
  destruct (extractSelectors b) as [|sel sels] eqn:Hsels; [congruence|].
  cbn [List.length Nat.eqb].
  unfold resolveAll. unfold bind at 1.
  rewrite (bind_Ok _ _ _ _ _ _ _ Hrun). reflexivity.
Qed.

Lemma tier2_without_selectors (address : string) (network : Network)
      (tr tr1 : list Request) (r : Result (option string)) :
  getCode env w address network tt tr = (r, tt, tr1) ->
  (forall b, r = Ok (Some b) -> has_push4 b = false) ->
  exists e, @tier2 Json env w address network tt tr = (Throw e, tt, tr1).
Proof.
  intros Hcode Hnone. unfold tier2.
  destruct r as [[b|] | e].
  - rewrite (bind_Ok _ _ _ _ _ _ _ Hcode).
    destruct (negb (Js.truthy b) || String.eqb b "0x"); [eexists; reflexivity|].
    pose proof (proj2 (extractSelectors_nil_iff b) (Hnone b eq_refl)) as Hnil.
    rewrite Hnil. eexists; reflexivity.
  - rewrite (bind_Ok _ _ _ _ _ _ _ Hcode). eexists; reflexivity.
  - unfold bind. rewrite Hcode. eexists; reflexivity.
Qed.

Lemma getContract_after_tier1_failure (q : Query.t) (address : string)
      (network : Network) (e1 : Exn) (tr1 : list Request) :
  getContractSchema_parse q = Ok (address, network) ->
  tier1 JSON_parse env w address (chainId_of network) tt [] = (Throw e1, tt, tr1) ->
  getContract JSON_parse env w q
  = match @tier2 Json env w address network tt tr1 with
    | (Ok reply, _, tr2) => (reply, tr2)
    | (Throw _, _, tr2) => (manual_abi_reply, tr2)
    end.
Proof.
  intros HparseOk Ht1. unfold getContract, getContract_body. rewrite HparseOk.
  rewrite (try_catch_Throw _ _ _ _ _ _ _ Ht1). unfold try_catch.
  destruct (@tier2 Json env w address network tt tr1) as [[[r | e] u] tr2]; reflexivity.
Qed.

(** What a recovered response is made of. *)
Lemma getContract_recovered (q : Query.t) (address : string) (network : Network)
      (b : string) (tr1 : list Request) :
  getContractSchema_parse q = Ok (address, network) ->
  abi_fetch_failed JSON_parse w [] (v2Url env (chainId_of network) address) ->
  getCode env w address network tt [GET (v2Url env (chainId_of network) address)]
  = (Ok (Some b), tt, tr1) ->
  has_push4 b = true ->
  exists ds,
    getContract JSON_parse env w q
    = (recovered_reply address ds, tr1 ++ map lookup_request (extractSelectors b))
    /\ map FunctionDescriptor.selector ds = kept_selectors w tr1 (extractSelectors b)
    /\ Forall (fun d => is_placeholder d \/ is_resolved d) ds.
Proof.
  intros HparseOk Hfail Hcode Hhas.
  destruct (tier1_failed JSON_parse env w address (chainId_of network) [] Hfail)
    as (e1 & Ht1).
  destruct (tier2_with_selectors address network _ tr1 b Hcode Hhas)
    as (ds & Ht2 & Hsel & Hall).
  exists ds. split; [|split; assumption].
  rewrite (getContract_after_tier1_failure q address network e1 _ HparseOk Ht1).
  cbn [app]. rewrite Ht2. reflexivity.
Qed.

Lemma getContract_not_recovered (q : Query.t) (address : string) (network : Network)
      (code : Result (option string)) (tr1 : list Request) :
  getContractSchema_parse q = Ok (address, network) ->
  abi_fetch_failed JSON_parse w [] (v2Url env (chainId_of network) address) ->
  getCode env w address network tt [GET (v2Url env (chainId_of network) address)]
  = (code, tt, tr1) ->
  (forall b, code = Ok (Some b) -> has_push4 b = false) ->
  getContract JSON_parse env w q = (manual_abi_reply, tr1).
Proof.
  intros HparseOk Hfail Hcode Hnone.
  destruct (tier1_failed JSON_parse env w address (chainId_of network) [] Hfail)
    as (e1 & Ht1).
  destruct (tier2_without_selectors address network _ tr1 code Hcode Hnone)
    as (e2 & Ht2).
  rewrite (getContract_after_tier1_failure q address network e1 _ HparseOk Ht1).
  cbn [app]. rewrite Ht2. reflexivity.
Qed.

End Requests.

(** A verified response costs two explorer requests or three, and which
    is decided by the source-code lookup: the ABI lookup and the
    source-code lookup always; the implementation's ABI lookup as a third
    exactly when the source-code entry has Proxy "1" and a non-empty
    implementation address, and no third request when that lookup fails
    or its entry has another flag or an empty implementation.  The node
    and the registry are not asked. *)
Theorem verified_tier_requests
  {Json : Type} (JSON_parse : string -> option Json) (env : Env.t) (w : World.t)
  (q : Query.t) (address : string) (network : Network) (v : Json) :
  let chainId := chainId_of network in
  let first := GET (v2Url env chainId address) in
  let second := GET (sourceUrl env chainId address) in
  getContractSchema_parse q = Ok (address, network) ->
  abi_fetched JSON_parse w [] (v2Url env chainId address) v ->
  exists name abi tr,
    getContract JSON_parse env w q = (verified_reply address name abi, tr)
    /\ (forall e,
          source_fetched w [first] (sourceUrl env chainId address) e ->
          EtherscanSourceCode.Proxy e = "1" ->
          EtherscanSourceCode.Implementation e <> "" ->
          tr = [first; second;
                GET (implUrl env chainId (EtherscanSourceCode.Implementation e))])
    /\ (forall e,
          source_fetched w [first] (sourceUrl env chainId address) e ->
          EtherscanSourceCode.Proxy e <> "1"
          \/ EtherscanSourceCode.Implementation e = "" ->
          tr = [first; second])
    /\ (source_fetch_failed w [first] (sourceUrl env chainId address) ->
        tr = [first; second]).
Proof.
  intros chainId first second HparseOk Habi.
  destruct (getContract_verified JSON_parse env w q address network v HparseOk Habi)
    as (l & tr & Henrich & Hreply).
  exists (Locals.contractName l), (Locals.abi l), tr. split; [exact Hreply|].
  fold chainId first in Henrich.
  split; [|split].
  - intros e Hsrc Hproxy Himpl.
    destruct (abi_lookup_cases JSON_parse w ([first] ++ [second])
                (implUrl env chainId (EtherscanSourceCode.Implementation e)))
      as [Hfail | (implAbi & HimplAbi)].
    + rewrite (enrich_impl_failed JSON_parse env w address chainId _ [first] e
                 Hsrc Hproxy Himpl Hfail) in Henrich.
      injection Henrich as _ <-. reflexivity.
    + rewrite (enrich_proxy JSON_parse env w address chainId _ [first] e implAbi
                 Hsrc Hproxy Himpl HimplAbi) in Henrich.
      injection Henrich as _ <-. reflexivity.
  - intros e Hsrc Hnot.
    rewrite (enrich_no_proxy JSON_parse env w address chainId _ [first] e Hsrc Hnot)
      in Henrich.
    injection Henrich as _ <-. reflexivity.
  - intros Hfail.
    rewrite (enrich_source_failed JSON_parse env w address chainId _ [first] Hfail)
      in Henrich.
    injection Henrich as _ <-. reflexivity.
Qed.

Lemma verified_tier_requests_witness :
  (exists name abi,
     getContract Scenario.JSON_parse Scenario.env Scenario.unverified_impl_world
                 (Scenario.query Scenario.proxy_address)
     = (verified_reply Scenario.proxy_address name abi,
        [GET (v2Url Scenario.env "8453" Scenario.proxy_address);
         GET (sourceUrl Scenario.env "8453" Scenario.proxy_address);
         GET (implUrl Scenario.env "8453" Scenario.impl_address)]))
  /\ (exists name abi,
        getContract Scenario.JSON_parse Scenario.env Scenario.plain_world
                    (Scenario.query Scenario.plain_address)
        = (verified_reply Scenario.plain_address name abi,
           [GET (v2Url Scenario.env "8453" Scenario.plain_address);
            GET (sourceUrl Scenario.env "8453" Scenario.plain_address)])).
Proof.
  split.
  - destruct (verified_tier_requests
                Scenario.JSON_parse Scenario.env Scenario.unverified_impl_world
                (Scenario.query Scenario.proxy_address) Scenario.proxy_address mainnet "[0]")
      as (name & abi & tr & Hrun & Hthree & _).
    + reflexivity.
    + answered.
    + exists name, abi. rewrite Hrun. f_equal.
      apply (Hthree {| EtherscanSourceCode.SourceCode := "";
                       EtherscanSourceCode.ABI := "";
                       EtherscanSourceCode.ContractName := "Vault";
                       EtherscanSourceCode.Proxy := "1";
                       EtherscanSourceCode.Implementation := Scenario.impl_address |}).
      * answered.
      * reflexivity.
      * discriminate.
  - destruct (verified_tier_requests
                Scenario.JSON_parse Scenario.env Scenario.plain_world
                (Scenario.query Scenario.plain_address) Scenario.plain_address mainnet "[0]")
      as (name & abi & tr & Hrun & _ & Htwo & _).
    + reflexivity.
    + answered.
    + exists name, abi. rewrite Hrun. f_equal.
      apply (Htwo {| EtherscanSourceCode.SourceCode := "";
                     EtherscanSourceCode.ABI := "";
                     EtherscanSourceCode.ContractName := "Token";
                     EtherscanSourceCode.Proxy := "0";
                     EtherscanSourceCode.Implementation := "" |}).
      * answered.
      * left. discriminate.
Defined.

(** When the first tier fails, the requests are the explorer's ABI lookup,
    one [eth_getCode] call, and then one registry lookup for each distinct
    selector of the bytecode, in scan order, none repeated.  The response
    is the 200 recovery exactly when the node returned bytecode in which
    the scan finds a selector; in every other case (the call failed, the
    body was not JSON, the result was absent, empty, "0x", or without a
    selector) it is the 404 and the registry is not asked. *)
Theorem recovery_requests_and_outcome
  {Json : Type} (JSON_parse : string -> option Json) (env : Env.t) (w : World.t)
  (q : Query.t) (address : string) (network : Network) :
  let first := GET (v2Url env (chainId_of network) address) in
  let call := POST (rpcUrl env network)
                   {| RpcCall.jsonrpc := "2.0"; RpcCall.id := 1;
                      RpcCall.method := "eth_getCode";
                      RpcCall.params := [address; "latest"] |} in
  getContractSchema_parse q = Ok (address, network) ->
  abi_fetch_failed JSON_parse w [] (v2Url env (chainId_of network) address) ->
  exists code reply selectors,
    getCode env w address network tt [first] = (code, tt, [first; call])
    /\ getContract JSON_parse env w q
       = (reply, [first; call] ++ map lookup_request selectors)
    /\ ((exists b ds,
           code = Ok (Some b) /\ has_push4 b = true
           /\ selectors = extractSelectors b
           /\ NoDup selectors
           /\ reply = recovered_reply address ds
           /\ map FunctionDescriptor.selector ds
              = kept_selectors w [first; call] selectors
           /\ Forall (fun d => is_placeholder d \/ is_resolved d) ds)
        \/ ((forall b, code = Ok (Some b) -> has_push4 b = false)
            /\ selectors = []
            /\ reply = manual_abi_reply)).
Proof.
  intros first call HparseOk Hfail.
  destruct (getCode_run env w address network [first]) as (code & Hcode).
  exists code.
  assert (Hdec : (exists b, code = Ok (Some b) /\ has_push4 b = true)
                 \/ (forall b, code = Ok (Some b) -> has_push4 b = false)).
  { destruct code as [[b|] | e]; try (right; intros b' [=]; fail).
    destruct (has_push4 b) eqn:Hb; [left; exists b; auto|].
    right. intros b' [= <-]. exact Hb. }
  destruct Hdec as [(b & -> & Hhas) | Hnone].
  - destruct (getContract_recovered JSON_parse env w q address network b _
                HparseOk Hfail Hcode Hhas) as (ds & Hrun & Hsel & Hall).
    exists (recovered_reply address ds), (extractSelectors b).
    split; [exact Hcode|]. split; [exact Hrun|].
    left. exists b, ds. repeat split; try assumption. apply new_Set_NoDup.
  - exists manual_abi_reply, []. split; [exact Hcode|]. split.
    + rewrite app_nil_r.
      exact (getContract_not_recovered JSON_parse env w q address network code _
               HparseOk Hfail Hcode Hnone).
    + right. repeat split. exact Hnone.
Qed.

Lemma recovery_requests_and_outcome_witness :
  exists code (reply : Reply.t Scenario.Json) selectors,
    getCode Scenario.env Scenario.three_refused Scenario.plain_address mainnet tt
            [GET (v2Url Scenario.env "8453" Scenario.plain_address)]
    = (code, tt,
       [GET (v2Url Scenario.env "8453" Scenario.plain_address);
        POST "https://mainnet.base.org"
             {| RpcCall.jsonrpc := "2.0"; RpcCall.id := 1;
                RpcCall.method := "eth_getCode";
                RpcCall.params := [Scenario.plain_address; "latest"] |}])
    /\ getContract Scenario.JSON_parse Scenario.env Scenario.three_refused
                   (Scenario.query Scenario.plain_address)
       = (reply,
          [GET (v2Url Scenario.env "8453" Scenario.plain_address);
           POST "https://mainnet.base.org"
                {| RpcCall.jsonrpc := "2.0"; RpcCall.id := 1;
                   RpcCall.method := "eth_getCode";
                   RpcCall.params := [Scenario.plain_address; "latest"] |}]
          ++ map lookup_request selectors)
    /\ ((exists b ds,
           code = Ok (Some b) /\ has_push4 b = true
           /\ selectors = extractSelectors b
           /\ NoDup selectors
           /\ reply = recovered_reply Scenario.plain_address ds
           /\ map FunctionDescriptor.selector ds
              = kept_selectors Scenario.three_refused
                  [GET (v2Url Scenario.env "8453" Scenario.plain_address);
                   POST "https://mainnet.base.org"
                        {| RpcCall.jsonrpc := "2.0"; RpcCall.id := 1;
                           RpcCall.method := "eth_getCode";
                           RpcCall.params := [Scenario.plain_address; "latest"] |}]
                  selectors
           /\ Forall (fun d => is_placeholder d \/ is_resolved d) ds)
        \/ ((forall b, code = Ok (Some b) -> has_push4 b = false)
            /\ selectors = []
            /\ reply = manual_abi_reply)).
Proof.
  apply (recovery_requests_and_outcome
           Scenario.JSON_parse Scenario.env Scenario.three_refused
           (Scenario.query Scenario.plain_address) Scenario.plain_address mainnet).
  - reflexivity.
  - left. constructor.
Defined.

(** ** Signatures and descriptors *)

Lemma span_spec (p : ascii -> bool) (s a b : string) :
  Js.span p s = (a, b) ->
  s = a +++ b /\ Js.all p a = true
  /\ match b with EmptyString => True | String c _ => p c = false end.
Proof.
  revert a b; induction s as [|c t IH]; intros a b; cbn [Js.span].
  - intros [= <- <-]. repeat split.
  - destruct (p c) eqn:Hc.
    + destruct (Js.span p t) as [a' b'] eqn:Hspan. intros [= <- <-].
      destruct (IH a' b' eq_refl) as (-> & Hall & Hb).
      repeat split; [cbn; now rewrite Hc, Hall | exact Hb].
    + intros [= <- <-]. repeat split. exact Hc.
Qed.

Lemma span_append (p : ascii -> bool) (a b : string) :
  Js.all p a = true ->
  match b with EmptyString => True | String c _ => p c = false end ->
  Js.span p (a +++ b) = (a, b).
Proof.
  intros Ha Hb. induction a as [|c a IH]; cbn in *.
  - destruct b as [|c b]; [reflexivity|]. cbn. now rewrite Hb.
  - apply andb_true_iff in Ha as [Hc Ha]. now rewrite Hc, (IH Ha).
Qed.

Lemma take_slice (n : nat) (s : string) : s = Js.take n s +++ Js.slice n s.
Proof.
  revert s; induction n as [|n IH]; intros [|c s]; cbn; try reflexivity.
  f_equal. apply IH.
Qed.

Lemma take_length_append (a b : string) : Js.take (String.length a) (a +++ b) = a.
Proof. induction a as [|c a IH]; cbn; [now destruct b | now rewrite IH]. Qed.

Lemma slice_length_append (a b : string) : Js.slice (String.length a) (a +++ b) = b.
Proof. induction a as [|c a IH]; cbn; [now destruct b | exact IH]. Qed.

Lemma slice_S (n : nat) (s : string) : Js.slice (S n) s = Js.slice n (Js.slice 1 s).
Proof. destruct s; destruct n; reflexivity. Qed.

Lemma length_append (a b : string) :
  String.length (a +++ b) = String.length a + String.length b.
Proof. induction a as [|c a IH]; cbn; [reflexivity | now rewrite IH]. Qed.

Lemma length_slice (n : nat) (s : string) :
  String.length (Js.slice n s) = String.length s - n.
Proof.
  revert s; induction n as [|n IH]; intros [|c s]; cbn; try reflexivity.
  apply IH.
Qed.

Lemma signature_regex_spec (text name args : string) :
  signature_regex text = Some (name, args) <->
  text = name +++ "(" +++ args +++ ")"
  /\ name <> ""
  /\ Js.all Js.is_ident_char name = true
  /\ Js.all (fun c => negb (Js.is_line_terminator c)) args = true.
Proof.
  unfold signature_regex. split.
  - destruct (Js.span Js.is_ident_char text) as [nm rest] eqn:Hspan.
    destruct (span_spec _ _ _ _ Hspan) as (Htext & Hident & _).
    destruct (Js.truthy nm && Js.startsWith "(" rest
              && (2 <=? String.length rest)
              && String.eqb (Js.slice (String.length rest - 1) rest) ")"
              && Js.all (fun c => negb (Js.is_line_terminator c))
                        (Js.take (String.length rest - 2) (Js.slice 1 rest))) eqn:Hcond;
      [|discriminate].
    intros [= <- <-].
    repeat (apply andb_true_iff in Hcond as [Hcond ?]).
    match goal with H : Js.startsWith "(" rest = true |- _ =>
      pose proof (startsWith_split "(" rest H) as Hrest end.
    cbn [String.length] in Hrest.
    match goal with H : (2 <=? _) = true |- _ => apply Nat.leb_le in H; rename H into Hlen end.
    match goal with H : String.eqb _ ")" = true |- _ =>
      apply String.eqb_eq in H; rename H into Hlast end.
    repeat split; try assumption.
    + rewrite Htext. f_equal. rewrite Hrest at 1. cbn [String.append]. f_equal.
      rewrite (take_slice (String.length rest - 2) (Js.slice 1 rest)) at 1. f_equal.
      replace (String.length rest - 1) with (S (String.length rest - 2)) in Hlast by lia.
      rewrite slice_S in Hlast. exact Hlast.
    + destruct nm; [discriminate Hcond | discriminate].
  - intros (-> & Hne & Hident & Hargs).
    rewrite (span_append Js.is_ident_char name ("(" +++ args +++ ")") Hident eq_refl).
    destruct name as [|c name]; [congruence|]. cbn [Js.truthy andb].
    change (Js.startsWith "(" ("(" +++ args +++ ")")) with true.
    change (Js.slice 1 ("(" +++ args +++ ")")) with (args +++ ")").
    assert (Hlen : String.length ("(" +++ args +++ ")") = S (S (String.length args))).
    { cbn. rewrite length_append. cbn. f_equal. lia. }
    rewrite Hlen. cbn [Nat.leb Nat.sub andb].
    rewrite Nat.sub_0_r.
    change (Js.slice (S (String.length args)) ("(" +++ args +++ ")"))
      with (Js.slice (String.length args) (args +++ ")")).
    rewrite slice_length_append, take_length_append, Hargs. reflexivity.
Qed.

(** The signature pattern and the printed form "name(args)" are inverse
    to each other: a text matches with the groups [name] and [args]
    exactly when it is [name], an opening parenthesis, [args] and a
    closing parenthesis, with [name] a non-empty word of [[a-zA-Z0-9_]]
    and no line terminator in [args]. *)
Theorem signature_regex_inverts_printing (text name args : string) :
  signature_regex text = Some (name, args) <->
  text = name +++ "(" +++ args +++ ")"
  /\ name <> ""
  /\ Js.all Js.is_ident_char name = true
  /\ Js.all (fun c => negb (Js.is_line_terminator c)) args = true.
Proof. exact (signature_regex_spec text name args). Qed.

Lemma signature_regex_inverts_printing_witness :
  signature_regex ("balanceOf" +++ "(" +++ "address" +++ ")")
  = Some ("balanceOf", "address").
Proof.
  apply (proj2 (signature_regex_inverts_printing
                  ("balanceOf" +++ "(" +++ "address" +++ ")") "balanceOf" "address")).
  repeat split; try reflexivity. discriminate.
Defined.

Lemma split_length (sep : ascii) (s : string) :
  List.length (Js.split sep s) = S (count_char sep s).
Proof.
  induction s as [|c t IH]; [reflexivity|].
  cbn [Js.split count_char]. destruct (Ascii.eqb c sep).
  - cbn. now rewrite IH.
  - destruct (Js.split sep t) as [|h r]; [discriminate IH|]. cbn in *. lia.
Qed.

Lemma trimEnd_cons (c : ascii) (t : string) :
  Js.trimEnd (String c t)
  = match Js.trimEnd t with
    | EmptyString => if Js.is_white_space c then EmptyString else String c EmptyString
    | String c' t' => String c (String c' t')
    end.
Proof. reflexivity. Qed.

Lemma trimEnd_idempotent (s : string) : Js.trimEnd (Js.trimEnd s) = Js.trimEnd s.
Proof.
  induction s as [|c t IH]; [reflexivity|].
  rewrite trimEnd_cons. destruct (Js.trimEnd t) as [|c' t'] eqn:Ht.
  - destruct (Js.is_white_space c) eqn:Hc; [reflexivity|].
    rewrite trimEnd_cons. cbn [Js.trimEnd]. now rewrite Hc.
  - rewrite trimEnd_cons, IH. reflexivity.
Qed.

Lemma trimStart_fixed (s : string) :
  match s with EmptyString => True | String c _ => Js.is_white_space c = false end ->
  Js.trimStart s = s.
Proof. destruct s as [|c t]; [reflexivity|]. cbn. now intros ->. Qed.

Lemma trimStart_head (s : string) :
  match Js.trimStart s with
  | EmptyString => True
  | String c _ => Js.is_white_space c = false
  end.
Proof.
  induction s as [|c t IH]; [exact I|].
  cbn. destruct (Js.is_white_space c) eqn:Hc; [exact IH | exact Hc].
Qed.

Lemma trimEnd_head (s : string) :
  match s with EmptyString => True | String c _ => Js.is_white_space c = false end ->
  match Js.trimEnd s with
  | EmptyString => True
  | String c _ => Js.is_white_space c = false
  end.
Proof.
  destruct s as [|c t]; [exact (fun H => H)|].
  rewrite trimEnd_cons. intros Hc. destruct (Js.trimEnd t); [now rewrite Hc | exact Hc].
Qed.

Lemma trim_idempotent (s : string) : Js.trim (Js.trim s) = Js.trim s.
Proof.
  unfold Js.trim.
  rewrite (trimStart_fixed (Js.trimEnd (Js.trimStart s))
             (trimEnd_head _ (trimStart_head s))).
  apply trimEnd_idempotent.
Qed.

(** What a resolved descriptor looks like: it is a function entry marked
    nonpayable for the selector asked; its name is the word before the
    parenthesis, made of [[a-zA-Z0-9_]] only; it has no input when the
    parentheses are empty and otherwise one input per comma plus one
    (also inside nested tuples, which are split); every input has an
    empty name and a type without surrounding white space. *)
Theorem resolved_descriptor_shape (selector text : string) (d : FunctionDescriptor.t) :
  descriptor_of_signature selector text = Some d ->
  FunctionDescriptor.type d = "function"
  /\ FunctionDescriptor.stateMutability d = "nonpayable"
  /\ FunctionDescriptor.selector d = selector
  /\ FunctionDescriptor.name d <> ""
  /\ Js.all Js.is_ident_char (FunctionDescriptor.name d) = true
  /\ (exists args,
        text = FunctionDescriptor.name d +++ "(" +++ args +++ ")"
        /\ List.length (FunctionDescriptor.inputs d)
           = match args with
             | EmptyString => 0
             | String _ _ => S (count_char "," args)
             end)
  /\ Forall (fun i => AbiInput.name i = ""
                      /\ Js.trim (AbiInput.type i) = AbiInput.type i)
            (FunctionDescriptor.inputs d).
Proof.
  unfold descriptor_of_signature.
  destruct (signature_regex text) as [[name args]|] eqn:Hre; [|discriminate].
  apply signature_regex_spec in Hre as (Htext & Hne & Hident & _).
  intros [= <-]. cbn.
  repeat split; try assumption.
  - exists args. split; [exact Htext|].
    destruct args as [|c args]; [reflexivity|].
    cbn [Js.truthy]. rewrite length_map. apply split_length.
  - apply Forall_forall. intros i Hi.
    apply in_map_iff in Hi as (ty & <- & _). cbn.
    split; [reflexivity | apply trim_idempotent].
Qed.

Lemma resolved_descriptor_shape_witness :
  exists d,
    descriptor_of_signature "0xa9059cbb" "transfer(address, uint256)" = Some d
    /\ FunctionDescriptor.name d = "transfer"
    /\ map AbiInput.type (FunctionDescriptor.inputs d) = ["address"; "uint256"]
    /\ Forall (fun i => AbiInput.name i = ""
                        /\ Js.trim (AbiInput.type i) = AbiInput.type i)
              (FunctionDescriptor.inputs d).
Proof.
  eexists. split; [reflexivity|]. split; [reflexivity|]. split; [reflexivity|].
  apply (resolved_descriptor_shape "0xa9059cbb" "transfer(address, uint256)").
  reflexivity.
Defined.

(** The tie-break among candidates: the text taken is that of the first
    candidate, in the order the registry lists them, among those with the
    least identifier. *)
Theorem bestSig_first_among_least
  (before after : list FourByteSignature.t) (best : FourByteSignature.t) :
  (forall x, In x before -> (FourByteSignature.id best < FourByteSignature.id x)%Z) ->
  (forall x, In x after -> (FourByteSignature.id best <= FourByteSignature.id x)%Z) ->
  bestSig (before ++ best :: after) = Some (FourByteSignature.text_signature best).
Proof.
  intros Hbefore Hafter.
  assert (Hhead : exists rest, sort_by_id (before ++ best :: after) = best :: rest).
  { induction before as [|x before IH].
    - cbn [app]. change (sort_by_id (best :: after))
        with (insert_by_id best (sort_by_id after)).
      destruct after as [|a after]; [exists []; reflexivity|].
      destruct (sort_by_id_head a after) as (b & r & -> & Hin & _).
      cbn [insert_by_id].
      destruct (Z.leb_spec (FourByteSignature.id best) (FourByteSignature.id b))
        as [Hle | Hlt].
      + eexists; reflexivity.
      + specialize (Hafter b Hin). lia.
    - destruct IH as (rest & Hrest).
      { intros y Hy. apply Hbefore. now right. }
      change (sort_by_id ((x :: before) ++ best :: after))
        with (insert_by_id x (sort_by_id (before ++ best :: after))).
      rewrite Hrest. cbn [insert_by_id].
      destruct (Z.leb_spec (FourByteSignature.id x) (FourByteSignature.id best))
        as [Hle | Hlt].
      + specialize (Hbefore x (or_introl eq_refl)). lia.
      + eexists; reflexivity. }
  destruct Hhead as (rest & Hsort). unfold bestSig. now rewrite Hsort.
Qed.

Lemma bestSig_first_among_least_witness :
  bestSig ([Scenario.candidate 9 "late()"]
           ++ Scenario.candidate 3 "first()" :: [Scenario.candidate 3 "second()"])
  = Some "first()".
Proof.
  apply (bestSig_first_among_least
           [Scenario.candidate 9 "late()"] [Scenario.candidate 3 "second()"]
           (Scenario.candidate 3 "first()")).
  - intros x [<- | []]. reflexivity.
  - intros x [<- | []]. discriminate.
Defined.

(** ** The recovered ABI *)

(** A lookup that gets no usable signature ends in the placeholder named
    after the selector, with no inputs, and never in an exception: when
    the request fails, when the body is not JSON, when the results are
    missing or empty, and when the text of the chosen candidate does not
    match the signature pattern. *)
Theorem fetchSignature_placeholder_when_unresolved
  (w : World.t) (selector : string) (tr : list Request) :
  (exists reason, World.registry w tr (signatureUrl selector) = FetchFailed reason)
  \/ (exists r, World.registry w tr (signatureUrl selector) = Fetched r
                /\ FetchResponse.ok r = true /\ FetchResponse.json r = None)
  \/ (exists data, fetch_answers (World.registry w tr (signatureUrl selector)) data
                   /\ (FourByteResponse.results data = None
                       \/ FourByteResponse.results data = Some []))
  \/ (exists data c cs text,
        fetch_answers (World.registry w tr (signatureUrl selector)) data
        /\ FourByteResponse.results data = Some (c :: cs)
        /\ bestSig (c :: cs) = Some text
        /\ signature_regex text = None) ->
  fetchSignature w selector tt tr
  = (Ok (Some (placeholder selector)), tt, tr ++ [GET (signatureUrl selector)])
  /\ FunctionDescriptor.name (placeholder selector) = "unknown_" +++ Js.slice 2 selector
  /\ FunctionDescriptor.inputs (placeholder selector) = [].
Proof.
  intros H. split; [|split; reflexivity].
  destruct H as [(reason & Ho) | [(r & Ho & Hok & Hjson)
               | [(data & (r & Ho & Hok & Hjson) & Hres)
               | (data & c & cs & text & Hans & Hres & Hbest & Hre)]]].
  - unfold fetchSignature, bind, try_catch, fetch_registry, fetch. now rewrite Ho.
  - unfold fetchSignature, bind, try_catch, fetch_registry, fetch, json_body.
    now rewrite Ho, Hok, Hjson.
  - unfold fetchSignature, bind, try_catch, fetch_registry, fetch, json_body.
    rewrite Ho, Hok, Hjson. cbn [negb ret].
    destruct Hres as [-> | ->]; reflexivity.
  - rewrite (fetchSignature_found w selector tr data c cs text Hans Hres Hbest).
    unfold descriptor_of_signature. now rewrite Hre.
Qed.

Lemma fetchSignature_placeholder_when_unresolved_witness :
  fetchSignature Scenario.three_failing "0xa0000009" tt []
  = (Ok (Some (placeholder "0xa0000009")), tt, [] ++ [GET (signatureUrl "0xa0000009")])
  /\ FunctionDescriptor.name (placeholder "0xa0000009") = "unknown_" +++ Js.slice 2 "0xa0000009"
  /\ FunctionDescriptor.inputs (placeholder "0xa0000009") = [].
Proof.
  apply (fetchSignature_placeholder_when_unresolved Scenario.three_failing "0xa0000009" []).
  right. right. left. eexists. split.
  - eexists. split; [reflexivity | split; reflexivity].
  - right. reflexivity.
Defined.

Lemma kept_selectors_incl (w : World.t) (selectors : list string) (tr : list Request)
      (sel : string) :
  In sel (kept_selectors w tr selectors) -> In sel selectors.
Proof.
  revert tr; induction selectors as [|s rest IH]; intros tr; [intros []|].
  cbn [kept_selectors]. intros H. apply in_app_or in H as [H | H].
  - destruct (lookup_refused w tr s); [destruct H|].
    destruct H as [<- | []]. now left.
  - right. exact (IH _ H).
Qed.

Lemma kept_selectors_NoDup (w : World.t) (selectors : list string) (tr : list Request) :
  NoDup selectors -> NoDup (kept_selectors w tr selectors).
Proof.
  revert tr; induction selectors as [|s rest IH]; intros tr Hnd; [constructor|].
  inversion Hnd as [|? ? Hnotin Hrest]; subst.
  cbn [kept_selectors]. destruct (lookup_refused w tr s); cbn [app].
  - now apply IH.
  - constructor; [|now apply IH].
    intros Hin. apply Hnotin. exact (kept_selectors_incl _ _ _ _ Hin).
Qed.

Lemma kept_selectors_none (w : World.t) (selectors : list string) (tr : list Request) :
  (forall h sel, In sel selectors -> lookup_refused w h sel = true) ->
  kept_selectors w tr selectors = [].
Proof.
  revert tr; induction selectors as [|s rest IH]; intros tr H; [reflexivity|].
  cbn [kept_selectors]. rewrite (H tr s (or_introl eq_refl)). cbn [app].
  apply IH. intros h sel Hin. apply H. now right.
Qed.

Lemma extractSelectors_shape (bytecode sel : string) :
  In sel (extractSelectors bytecode) ->
  exists h, sel = "0x" +++ h /\ String.length h = 8 /\ Js.all Js.is_hex_digit h = true.
Proof.
  unfold extractSelectors. intros Hin.
  apply new_Set_In, in_map_iff in Hin as (m & <- & Hm).
  destruct (match_push4_from_spec bytecode 0 m Hm) as (h & -> & Hlen & Hall & _).
  exists h. repeat split; assumption.
Qed.

Lemma descriptor_fields (d : FunctionDescriptor.t) :
  is_placeholder d \/ is_resolved d ->
  FunctionDescriptor.type d = "function"
  /\ FunctionDescriptor.stateMutability d = "nonpayable"
  /\ Forall (fun i => AbiInput.name i = "") (FunctionDescriptor.inputs d).
Proof.
  intros [Hp | (text & Hr)].
  - rewrite Hp. repeat split. constructor.
  - unfold descriptor_of_signature in Hr.
    destruct (signature_regex text) as [[name args]|]; [|discriminate].
    injection Hr as <-. cbn. repeat split.
    apply Forall_forall. intros i Hi. apply in_map_iff in Hi as (ty & <- & _). reflexivity.
Qed.

Section RecoveredAbi.

Context {Json : Type}.
Variable JSON_parse : string -> option Json.
Variable env : Env.t.
Variable w : World.t.

(** Every recovered ABI, whatever the node and the registry answered:
    its entries are function entries marked nonpayable with unnamed
    inputs, each selector is "0x" and eight hex digits, and no two
    entries share a selector. *)
Theorem recovered_abi_invariants
  (q : Query.t) (reply : Reply.t Json) (tr : list Request)
  (d : ContractData.t Json) (ds : list FunctionDescriptor.t) :
  getContract JSON_parse env w q = (reply, tr) ->
  Body.data (Reply.body reply) = Some d ->
  ContractData.abi d = RecoveredAbi ds ->
  NoDup (map FunctionDescriptor.selector ds)
  /\ Forall (fun e =>
               FunctionDescriptor.type e = "function"
               /\ FunctionDescriptor.stateMutability e = "nonpayable"
               /\ Forall (fun i => AbiInput.name i = "") (FunctionDescriptor.inputs e)
               /\ exists h, FunctionDescriptor.selector e = "0x" +++ h
                            /\ String.length h = 8
                            /\ Js.all Js.is_hex_digit h = true) ds
  /\ ContractData.isVerified d = false
  /\ ContractData.isRecovered d = Some true
  /\ ContractData.name d = "Unverified Contract (Recovered)".
Proof.
  intros Hrun Hdata Habi.
  destruct (getContractSchema_parse q) as [[address network] | e] eqn:HparseOk.
  2:{ unfold getContract, getContract_body in Hrun. rewrite HparseOk in Hrun.
      destruct (parse_throws_ZodError q e HparseOk) as (errors & ->).
      cbn in Hrun. injection Hrun as <- _. discriminate Hdata. }
  destruct (abi_lookup_cases JSON_parse w [] (v2Url env (chainId_of network) address))
    as [Hfail | (v & Hv)].
  2:{ destruct (getContract_verified JSON_parse env w q address network v HparseOk Hv)
        as (l & tr' & _ & Hreply).
      rewrite Hreply in Hrun. injection Hrun as <- _.
      cbn in Hdata. injection Hdata as <-. discriminate Habi. }
  destruct (getCode_run env w address network
              [GET (v2Url env (chainId_of network) address)]) as (code & Hcode).
  assert (Hdec : (exists b, code = Ok (Some b) /\ has_push4 b = true)
                 \/ (forall b, code = Ok (Some b) -> has_push4 b = false)).
  { destruct code as [[b|] | e]; try (right; intros b' [=]; fail).
    destruct (has_push4 b) eqn:Hb; [left; exists b; auto|].
    right. intros b' [= <-]. exact Hb. }
  destruct Hdec as [(b & -> & Hhas) | Hnone].
  - destruct (getContract_recovered JSON_parse env w q address network b _
                HparseOk Hfail Hcode Hhas) as (ds' & Hreply & Hsel & Hall).
    rewrite Hreply in Hrun. injection Hrun as <- _.
    cbn in Hdata. injection Hdata as <-. cbn in Habi. injection Habi as <-.
    split; [|split; [|repeat split]].
    + rewrite Hsel. apply kept_selectors_NoDup. apply new_Set_NoDup.
    + apply Forall_forall. intros e He.
      destruct (descriptor_fields e (proj1 (Forall_forall _ _) Hall e He))
        as (Hty & Hmut & Hnames).
      repeat split; try assumption.
      apply (extractSelectors_shape b).
      eapply kept_selectors_incl.
      rewrite <- Hsel. now apply in_map.
  - rewrite (getContract_not_recovered JSON_parse env w q address network code _
               HparseOk Hfail Hcode Hnone) in Hrun.
    injection Hrun as <- _. discriminate Hdata.
Qed.

(** When every registry lookup is answered with a non-success status,
    recovery still reports success: the response is the 200 recovery with
    an empty ABI, after one lookup per selector. *)
Theorem all_lookups_refused_gives_empty_abi
  (q : Query.t) (address : string) (network : Network) (b : string)
  (tr1 : list Request) :
  getContractSchema_parse q = Ok (address, network) ->
  abi_fetch_failed JSON_parse w [] (v2Url env (chainId_of network) address) ->
  getCode env w address network tt [GET (v2Url env (chainId_of network) address)]
  = (Ok (Some b), tt, tr1) ->
  has_push4 b = true ->
  (forall h sel, lookup_refused w h sel = true) ->
  getContract JSON_parse env w q
  = (recovered_reply address [], tr1 ++ map lookup_request (extractSelectors b))
  /\ extractSelectors b <> [].
Proof.
  intros HparseOk Hfail Hcode Hhas Hrefused.
  destruct (getContract_recovered JSON_parse env w q address network b _
              HparseOk Hfail Hcode Hhas) as (ds & Hreply & Hsel & _).
  rewrite (kept_selectors_none w _ tr1 (fun h sel _ => Hrefused h sel)) in Hsel.
  apply map_eq_nil in Hsel. subst ds. split; [exact Hreply|].
  intros Hnil. apply extractSelectors_nil_iff in Hnil. congruence.
Qed.

End RecoveredAbi.

Lemma recovered_abi_invariants_witness :
  exists d ds,
    Body.data (Reply.body
      (fst (getContract Scenario.JSON_parse Scenario.env Scenario.three_failing
                        (Scenario.query Scenario.plain_address)))) = Some d
    /\ ContractData.abi d = RecoveredAbi ds
    /\ List.length ds = 10
    /\ NoDup (map FunctionDescriptor.selector ds).
Proof.
  eexists; eexists. split; [reflexivity|]. split; [reflexivity|].
  split; [reflexivity|].
  apply (recovered_abi_invariants
           Scenario.JSON_parse Scenario.env Scenario.three_failing
           (Scenario.query Scenario.plain_address)
           (fst (getContract Scenario.JSON_parse Scenario.env Scenario.three_failing
                             (Scenario.query Scenario.plain_address)))
           (snd (getContract Scenario.JSON_parse Scenario.env Scenario.three_failing
                             (Scenario.query Scenario.plain_address)))
           _ _ eq_refl eq_refl eq_refl).
Defined.

Lemma all_lookups_refused_gives_empty_abi_witness :
  getContract Scenario.JSON_parse Scenario.env MoreScenarios.rate_limited
              (Scenario.query Scenario.plain_address)
  = (recovered_reply Scenario.plain_address [],
     [GET (v2Url Scenario.env "8453" Scenario.plain_address);
      POST "https://mainnet.base.org"
           {| RpcCall.jsonrpc := "2.0"; RpcCall.id := 1;
              RpcCall.method := "eth_getCode";
              RpcCall.params := [Scenario.plain_address; "latest"] |}]
     ++ map lookup_request (extractSelectors Scenario.ten_bytecode))
  /\ extractSelectors Scenario.ten_bytecode <> [].
Proof.
  apply (all_lookups_refused_gives_empty_abi
           Scenario.JSON_parse Scenario.env MoreScenarios.rate_limited
           (Scenario.query Scenario.plain_address) Scenario.plain_address mainnet
           Scenario.ten_bytecode).
  - reflexivity.
  - left. constructor.
  - reflexivity.
  - reflexivity.
  - intros h sel. reflexivity.
Defined.

(** ** The frontend's [fetchContractFromExplorer] *)

Section FrontendProperties.

Context {Json : Type}.
Variable JSON_parse : string -> option Json.
Variable w : World.t.

(** The name lookup never throws and costs one request. *)
Lemma fetch_name_total (baseUrl address name : string) (tr : list Request) :
  exists name',
    fetch_name w baseUrl address name tr
    = (Ok tt, name', tr ++ [GET (getsourcecodeUrl baseUrl address)]).
Proof.
  unfold fetch_name, try_catch, bind, fetch_explorer, fetch, json_body.
  destruct (World.explorer w tr (getsourcecodeUrl baseUrl address)) as [reason | r];
    [eexists; reflexivity|].
  destruct (FetchResponse.ok r); [|eexists; reflexivity].
  destruct (FetchResponse.json r) as [data|]; [|eexists; reflexivity].
  cbn [ret].
  destruct (String.eqb (EtherscanResponse.status data) "1"
            && result_truthy (EtherscanResponse.result data)
            && result_nonempty (EtherscanResponse.result data));
    eexists; reflexivity.
Qed.

Lemma fetch_name_found (baseUrl address name : string) (tr : list Request)
      (e : EtherscanSourceCode.t) :
  source_fetched w tr (getsourcecodeUrl baseUrl address) e ->
  fetch_name w baseUrl address name tr
  = (Ok tt, name_of_source e, tr ++ [GET (getsourcecodeUrl baseUrl address)]).
Proof.
  intros (data & (r & Ho & Hok & Hjson) & Hstatus & Hfirst).
  unfold fetch_name, try_catch, bind, fetch_explorer, fetch, json_body.
  rewrite Ho, Hok, Hjson. cbn [ret]. rewrite Hstatus, String.eqb_refl.
  destruct (EtherscanResponse.result data) as [|s|[|first rest]]; try discriminate.
  injection Hfirst as ->. reflexivity.
Qed.

Lemma fetch_name_not_found (baseUrl address : string) (tr : list Request) :
  source_fetch_failed w tr (getsourcecodeUrl baseUrl address) ->
  fetch_name w baseUrl address "Unknown Contract" tr
  = (Ok tt, "Unknown Contract", tr ++ [GET (getsourcecodeUrl baseUrl address)]).
Proof.
  intros [Hfail | (data & (r & Ho & Hok & Hjson) & Hbad)];
    unfold fetch_name, try_catch, bind, fetch_explorer, fetch, json_body.
  - destruct (World.explorer w tr (getsourcecodeUrl baseUrl address)) as [reason | r];
      [reflexivity|].
    inversion Hfail as [ | r' Hok | r' Hok Hjson]; subst r'; rewrite Hok;
      [|rewrite Hjson]; reflexivity.
  - rewrite Ho, Hok, Hjson. cbn [ret].
    destruct Hbad as [Hs | Hnone].
    + apply String.eqb_neq in Hs. rewrite Hs. reflexivity.
    + destruct (String.eqb (EtherscanResponse.status data) "1"); [|reflexivity].
      destruct (EtherscanResponse.result data) as [|s|[|first rest]];
        try discriminate Hnone; try reflexivity.
      cbn. destruct s; reflexivity.
Qed.

Lemma basescan_attempt_found (baseUrl address : string) (tr : list Request) (v : Json) :
  abi_fetched JSON_parse w tr (getabiUrl baseUrl address) v ->
  exists name,
    fetch_name w baseUrl address "Unknown Contract"
               (tr ++ [GET (getabiUrl baseUrl address)])
    = (Ok tt, name, (tr ++ [GET (getabiUrl baseUrl address)])
                      ++ [GET (getsourcecodeUrl baseUrl address)])
    /\ basescan_attempt JSON_parse w baseUrl address tt tr
       = (Ok {| ExplorerContract.address := address;
                ExplorerContract.name := name;
                ExplorerContract.abi := v;
                ExplorerContract.is_verified := true |}, tt,
          (tr ++ [GET (getabiUrl baseUrl address)])
            ++ [GET (getsourcecodeUrl baseUrl address)]).
Proof.
  intros (data & (r & Ho & Hok & Hjson) & Hstatus & Htruthy & Hparse).
  destruct (fetch_name_total baseUrl address "Unknown Contract"
              (tr ++ [GET (getabiUrl baseUrl address)])) as (name & Hname).
  exists name. split; [exact Hname|].
  unfold basescan_attempt, bind, try_catch, fetch_explorer, fetch, json_body,
    JSON_parse_result, block.
  rewrite Ho, Hok, Hjson. cbn [ret]. rewrite Hstatus, Htruthy, String.eqb_refl.
  cbn [andb]. rewrite Hparse. cbn [ret]. rewrite Hname. reflexivity.
Qed.

Lemma basescan_attempt_failed (baseUrl address : string) (tr : list Request) :
  abi_fetch_failed JSON_parse w tr (getabiUrl baseUrl address) ->
  exists e, basescan_attempt JSON_parse w baseUrl address tt tr
            = (Throw e, tt, tr ++ [GET (getabiUrl baseUrl address)]).
Proof.
  intros [Hfail | (data & (r & Ho & Hok & Hjson) & Hbad)];
    unfold basescan_attempt, bind, try_catch, fetch_explorer, fetch, json_body,
      JSON_parse_result.
  - destruct (World.explorer w tr (getabiUrl baseUrl address)) as [reason | r];
      [eexists; reflexivity|].
    inversion Hfail as [ | r' Hok | r' Hok Hjson]; subst r'; rewrite Hok.
    + destruct (FetchResponse.json r); eexists; reflexivity.
    + rewrite Hjson. eexists; reflexivity.
  - rewrite Ho, Hok, Hjson. cbn [ret andb].
    destruct Hbad as [Hs | [Ht | Hp]].
    + apply String.eqb_neq in Hs. rewrite Hs. eexists; reflexivity.
    + rewrite Ht, andb_false_r. eexists; reflexivity.
    + rewrite Hp.
      destruct (String.eqb _ "1" && result_truthy _); eexists; reflexivity.
Qed.

Lemma blockscout_attempt_found (address : string) (isTestnet : bool)
      (tr : list Request) (v : Json) :
  abi_fetched JSON_parse w tr (getabiUrl (blockscoutUrl isTestnet) address) v ->
  blockscout_attempt JSON_parse w address isTestnet tt tr
  = (Ok (Returned {| ExplorerContract.address := address;
                     ExplorerContract.name := "Unknown Contract (Blockscout)";
                     ExplorerContract.abi := v;
                     ExplorerContract.is_verified := true |}), tt,
     tr ++ [GET (getabiUrl (blockscoutUrl isTestnet) address)]).
Proof.
  intros (data & (r & Ho & Hok & Hjson) & Hstatus & Htruthy & Hparse).
  unfold blockscout_attempt, bind, try_catch, fetch_explorer, fetch, json_body,
    JSON_parse_result.
  rewrite Ho, Hok, Hjson. cbn [ret]. rewrite Hstatus, Htruthy, String.eqb_refl.
  cbn [andb]. rewrite Hparse. reflexivity.
Qed.

Lemma blockscout_attempt_failed (address : string) (isTestnet : bool)
      (tr : list Request) :
  abi_fetch_failed JSON_parse w tr (getabiUrl (blockscoutUrl isTestnet) address) ->
  blockscout_attempt JSON_parse w address isTestnet tt tr
  = (Ok FellThrough, tt, tr ++ [GET (getabiUrl (blockscoutUrl isTestnet) address)]).
Proof.
  intros [Hfail | (data & (r & Ho & Hok & Hjson) & Hbad)];
    unfold blockscout_attempt, bind, try_catch, fetch_explorer, fetch, json_body,
      JSON_parse_result.
  - destruct (World.explorer w tr (getabiUrl (blockscoutUrl isTestnet) address))
      as [reason | r]; [reflexivity|].
    inversion Hfail as [ | r' Hok | r' Hok Hjson]; subst r'.
    + destruct (FetchResponse.json r); [|reflexivity].
      cbn [ret]. rewrite Hok. reflexivity.
    + rewrite Hjson. reflexivity.
  - rewrite Ho, Hok, Hjson. cbn [ret andb].
    destruct Hbad as [Hs | [Ht | Hp]].
    + apply String.eqb_neq in Hs. rewrite Hs. reflexivity.
    + rewrite Ht, andb_false_r. reflexivity.
    + rewrite Hp. destruct (String.eqb _ "1" && result_truthy _); reflexivity.
Qed.

Lemma frontend_basescan_run (address : string) (isTestnet : bool)
      (tr : list Request) (v : Json) :
  let getabi := GET (getabiUrl (baseUrl_of isTestnet) address) in
  let getsource := GET (getsourcecodeUrl (baseUrl_of isTestnet) address) in
  abi_fetched JSON_parse w tr (getabiUrl (baseUrl_of isTestnet) address) v ->
  exists name,
    fetchContractFromExplorer JSON_parse w address isTestnet tt tr
    = (Ok {| ExplorerContract.address := address;
             ExplorerContract.name := name;
             ExplorerContract.abi := v;
             ExplorerContract.is_verified := true |}, tt,
       (tr ++ [getabi]) ++ [getsource])
    /\ (forall e,
          source_fetched w (tr ++ [getabi])
                         (getsourcecodeUrl (baseUrl_of isTestnet) address) e ->
          name = name_of_source e)
    /\ (source_fetch_failed w (tr ++ [getabi])
                            (getsourcecodeUrl (baseUrl_of isTestnet) address) ->
        name = "Unknown Contract").
Proof.
  cbv zeta. intros Habi.
  destruct (basescan_attempt_found (baseUrl_of isTestnet) address tr v Habi)
    as (name & Hname & Hrun).
  exists name. split; [|split].
  - unfold fetchContractFromExplorer. fold (baseUrl_of isTestnet).
    exact (try_catch_Ok _ _ _ _ _ _ _ Hrun).
  - intros e Hsrc.
    rewrite (fetch_name_found _ _ "Unknown Contract" _ e Hsrc) in Hname.
    now injection Hname.
  - intros Hfail. rewrite (fetch_name_not_found _ _ _ Hfail) in Hname.
    now injection Hname.
Qed.

Lemma frontend_fallback_run (address : string) (isTestnet : bool) (tr : list Request) :
  let getabi := GET (getabiUrl (baseUrl_of isTestnet) address) in
  abi_fetch_failed JSON_parse w tr (getabiUrl (baseUrl_of isTestnet) address) ->
  fetchContractFromExplorer JSON_parse w address isTestnet tt tr
  = match blockscout_attempt JSON_parse w address isTestnet tt (tr ++ [getabi]) with
    | (Ok (Returned contract), s, tr') => (Ok contract, s, tr')
    | (Ok FellThrough, s, tr') =>
        (Throw (Error
           "Failed to fetch contract from explorer (Basescan & Blockscout checked)"),
         s, tr')
    | (Throw e, s, tr') => (Throw e, s, tr')
    end.
Proof.
  cbv zeta. intros Hfail.
  destruct (basescan_attempt_failed (baseUrl_of isTestnet) address tr Hfail) as (e & Hrun).
  unfold fetchContractFromExplorer. fold (baseUrl_of isTestnet).
  rewrite (try_catch_Throw _ _ _ _ _ _ _ Hrun). unfold bind.
  destruct (blockscout_attempt JSON_parse w address isTestnet tt _)
    as [[[[c|]|e'] s] tr']; reflexivity.
Qed.

(** The explorer is preferred: when its ABI lookup succeeds, the promise
    resolves with that ABI, marked verified, after exactly the ABI lookup
    and the source-code lookup, and Blockscout is not asked.  The name is
    the contract name of the first source-code entry, and "Unknown
    Contract" when that lookup fails or the name is empty. *)
Theorem frontend_prefers_basescan (address : string) (isTestnet : bool)
        (tr : list Request) (v : Json) :
  let getabi := GET (getabiUrl (baseUrl_of isTestnet) address) in
  let getsource := GET (getsourcecodeUrl (baseUrl_of isTestnet) address) in
  abi_fetched JSON_parse w tr (getabiUrl (baseUrl_of isTestnet) address) v ->
  exists name,
    fetchContractFromExplorer JSON_parse w address isTestnet tt tr
    = (Ok {| ExplorerContract.address := address;
             ExplorerContract.name := name;
             ExplorerContract.abi := v;
             ExplorerContract.is_verified := true |}, tt,
       (tr ++ [getabi]) ++ [getsource])
    /\ (forall e,
          source_fetched w (tr ++ [getabi])
                         (getsourcecodeUrl (baseUrl_of isTestnet) address) e ->
          name = name_of_source e)
    /\ (source_fetch_failed w (tr ++ [getabi])
                            (getsourcecodeUrl (baseUrl_of isTestnet) address) ->
        name = "Unknown Contract").
Proof. exact (frontend_basescan_run address isTestnet tr v). Qed.

(** The fallback: when the explorer's ABI lookup fails in any way (also
    when its result does not parse) and Blockscout's succeeds, the promise
    resolves with Blockscout's ABI under the fixed name "Unknown Contract
    (Blockscout)", marked verified. *)
Theorem frontend_falls_back_to_blockscout (address : string) (isTestnet : bool)
        (tr : list Request) (v : Json) :
  let getabi := GET (getabiUrl (baseUrl_of isTestnet) address) in
  let fallback := GET (getabiUrl (blockscoutUrl isTestnet) address) in
  abi_fetch_failed JSON_parse w tr (getabiUrl (baseUrl_of isTestnet) address) ->
  abi_fetched JSON_parse w (tr ++ [getabi])
              (getabiUrl (blockscoutUrl isTestnet) address) v ->
  fetchContractFromExplorer JSON_parse w address isTestnet tt tr
  = (Ok {| ExplorerContract.address := address;
           ExplorerContract.name := "Unknown Contract (Blockscout)";
           ExplorerContract.abi := v;
           ExplorerContract.is_verified := true |}, tt,
     (tr ++ [getabi]) ++ [fallback]).
Proof.
  cbv zeta. intros Hfail Habi.
  rewrite (frontend_fallback_run address isTestnet tr Hfail).
  now rewrite (blockscout_attempt_found address isTestnet _ v Habi).
Qed.

(** When both ABI lookups fail, the promise rejects with the one fixed
    message, whatever went wrong underneath. *)
Theorem frontend_rejects_when_both_fail (address : string) (isTestnet : bool)
        (tr : list Request) :
  let getabi := GET (getabiUrl (baseUrl_of isTestnet) address) in
  let fallback := GET (getabiUrl (blockscoutUrl isTestnet) address) in
  abi_fetch_failed JSON_parse w tr (getabiUrl (baseUrl_of isTestnet) address) ->
  abi_fetch_failed JSON_parse w (tr ++ [getabi])
                   (getabiUrl (blockscoutUrl isTestnet) address) ->
  fetchContractFromExplorer JSON_parse w address isTestnet tt tr
  = (Throw (Error
       "Failed to fetch contract from explorer (Basescan & Blockscout checked)"),
     tt, (tr ++ [getabi]) ++ [fallback]).
Proof.
  cbv zeta. intros Hfail Hfail2.
  rewrite (frontend_fallback_run address isTestnet tr Hfail).
  now rewrite (blockscout_attempt_failed address isTestnet _ Hfail2).
Qed.

(** Every call issues exactly two requests, and ends in one of two ways:
    it resolves with a record for the address asked, marked verified, or
    it rejects with the fixed message. *)
Theorem frontend_two_requests_two_outcomes (address : string) (isTestnet : bool)
        (tr : list Request) :
  exists r tr',
    fetchContractFromExplorer JSON_parse w address isTestnet tt tr = (r, tt, tr')
    /\ List.length tr' = List.length tr + 2
    /\ (r = Throw (Error
               "Failed to fetch contract from explorer (Basescan & Blockscout checked)")
        \/ exists c, r = Ok c
                     /\ ExplorerContract.address c = address
                     /\ ExplorerContract.is_verified c = true).
Proof.
  destruct (abi_lookup_cases JSON_parse w tr (getabiUrl (baseUrl_of isTestnet) address))
    as [Hfail | (v & Habi)].
  - rewrite (frontend_fallback_run address isTestnet tr Hfail).
    destruct (abi_lookup_cases JSON_parse w
                (tr ++ [GET (getabiUrl (baseUrl_of isTestnet) address)])
                (getabiUrl (blockscoutUrl isTestnet) address)) as [Hfail2 | (v & Habi)].
    + rewrite (blockscout_attempt_failed address isTestnet _ Hfail2).
      do 2 eexists. split; [reflexivity|]. split; [|now left].
      rewrite !length_app. cbn. lia.
    + rewrite (blockscout_attempt_found address isTestnet _ v Habi).
      do 2 eexists. split; [reflexivity|]. split.
      * rewrite !length_app. cbn. lia.
      * right. eexists. repeat split.
  - destruct (frontend_basescan_run address isTestnet tr v Habi) as (name & -> & _).
    do 2 eexists. split; [reflexivity|]. split.
    + rewrite !length_app. cbn. lia.
    + right. eexists. repeat split.
Qed.

End FrontendProperties.

Lemma frontend_prefers_basescan_witness :
  fetchContractFromExplorer Scenario.JSON_parse MoreScenarios.basescan_verified
                            Scenario.plain_address false tt []
  = (Ok {| ExplorerContract.address := Scenario.plain_address;
           ExplorerContract.name := "Token";
           ExplorerContract.abi := "[0]";
           ExplorerContract.is_verified := true |}, tt,
     [GET (getabiUrl BASE_EXPLORER_API Scenario.plain_address);
      GET (getsourcecodeUrl BASE_EXPLORER_API Scenario.plain_address)]).
Proof.
  destruct (frontend_prefers_basescan
              Scenario.JSON_parse MoreScenarios.basescan_verified
              Scenario.plain_address false [] "[0]") as (name & Hrun & Hname & _).
  - answered.
  - rewrite Hrun. rewrite (Hname
      {| EtherscanSourceCode.SourceCode := "";
         EtherscanSourceCode.ABI := "";
         EtherscanSourceCode.ContractName := "Token";
         EtherscanSourceCode.Proxy := "0";
         EtherscanSourceCode.Implementation := "" |}).
    + reflexivity.
    + answered.
Defined.

Lemma frontend_falls_back_to_blockscout_witness :
  fetchContractFromExplorer Scenario.JSON_parse MoreScenarios.blockscout_only
                            Scenario.plain_address false tt []
  = (Ok {| ExplorerContract.address := Scenario.plain_address;
           ExplorerContract.name := "Unknown Contract (Blockscout)";
           ExplorerContract.abi := "[1,2]";
           ExplorerContract.is_verified := true |}, tt,
     [GET (getabiUrl BASE_EXPLORER_API Scenario.plain_address);
      GET (getabiUrl (blockscoutUrl false) Scenario.plain_address)]).
Proof.
  apply (frontend_falls_back_to_blockscout
           Scenario.JSON_parse MoreScenarios.blockscout_only
           Scenario.plain_address false [] "[1,2]").
  - right. eexists. split.
    + eexists. split; [reflexivity | split; reflexivity].
    + left. discriminate.
  - answered.
Defined.

Lemma frontend_rejects_when_both_fail_witness :
  fetchContractFromExplorer Scenario.JSON_parse Scenario.offline
                            Scenario.plain_address true tt []
  = (Throw (Error
       "Failed to fetch contract from explorer (Basescan & Blockscout checked)"),
     tt,
     [GET (getabiUrl BASE_SEPOLIA_EXPLORER_API Scenario.plain_address);
      GET (getabiUrl (blockscoutUrl true) Scenario.plain_address)]).
Proof.
  apply (frontend_rejects_when_both_fail
           Scenario.JSON_parse Scenario.offline Scenario.plain_address true []).
  - left. constructor.
  - left. constructor.
Defined.
